(** * A shallow embedding of the notebook
      "07. Training Neural Networks in PyTorch"

    The repository consists of one Jupyter notebook whose code cells are
    short sequences of calls into PyTorch and torchvision.  We embed

    - the code cells as statements of a small Python fragment, where every
      library call is kept with its callee and its argument text, and the
      library itself is left abstract (a Section variable);
    - the recorded outputs of the checkpoint (execution counts and the
      output entries of every code cell);
    - the training loop of the last training cell as a functional program,
      over an abstract model/optimizer state and an abstract float type;
    - the parts of the library whose documented semantics the claims rely
      on: the batching of [torch.utils.data.DataLoader], the update of
      [torch.optim.SGD] without momentum, and [nn.LogSoftmax]. *)

From Stdlib Require Import List String Ascii Bool Arith Lia ZArith Permutation Sorted.
From Stdlib Require QArith Reals DecimalString Lra.
Import ListNotations.

Set Warnings "-register-all".

Module Notebook.

Local Open Scope string_scope.

(** ** Syntax of the code cells *)

(** A call [f(a1, ..., an)]: the callee text and the argument texts. *)
Record call := mkcall { fn : string; args : list string }.

Notation "f @@ a" := (mkcall f a) (at level 60, no associativity).

(** Assignment targets: [x = ...] and [x, y = ...]. *)
Inductive target :=
| TName (x : string)
| TTuple (xs : list string).

(** The iterables of [for] loops: [range(n)] and any other object. *)
Inductive iterable :=
| IRange (bound : string)
| IIter (obj : string).

(** Python statements.  [SExpr t cs] is an expression statement (or an
    assignment to [t]) whose evaluation makes the calls [cs], in Python's
    evaluation order (arguments before the callee).  [SAssignInt x v] is
    [x = v] for an integer literal [v].  Imports and magics are
    expression statements calling the import machinery.  [SFor] carries the
    [else] block of a Python [for] loop.  [SIf], [SWhile], [STry] and
    [SAssert] are the control and error-handling statements of Python; the
    notebook uses none of them. *)
Inductive stmt :=
| SExpr (t : option target) (cs : list call)
| SAugAssign (x : string) (cs : list call)
| SAssignInt (x : string) (v : Z)
| SFor (t : target) (it : iterable) (body orelse : list stmt)
| SWith (ctx : call) (body : list stmt)
| SIf (cond : list call) (thn els : list stmt)
| SWhile (cond : list call) (body : list stmt)
| STry (body handler : list stmt)
| SAssert (cond : list call).

(** Induction on statements, with the hypothesis for every statement of a
    nested block. *)
Section StmtInd.

Variable P : stmt -> Prop.
Hypothesis HExpr : forall t cs, P (SExpr t cs).
Hypothesis HAug : forall x cs, P (SAugAssign x cs).
Hypothesis HInt : forall x v, P (SAssignInt x v).
Hypothesis HFor : forall t it body orelse,
  Forall P body -> Forall P orelse -> P (SFor t it body orelse).
Hypothesis HWith : forall ctx body, Forall P body -> P (SWith ctx body).
Hypothesis HIf : forall cond thn els, Forall P thn -> Forall P els -> P (SIf cond thn els).
Hypothesis HWhile : forall cond body, Forall P body -> P (SWhile cond body).
Hypothesis HTry : forall body handler,
  Forall P body -> Forall P handler -> P (STry body handler).
Hypothesis HAssert : forall cond, P (SAssert cond).

Fixpoint stmt_ind' (st : stmt) : P st :=
  let fix blk (b : list stmt) : Forall P b :=
    match b with
    | [] => Forall_nil P
    | x :: b' => Forall_cons x (stmt_ind' x) (blk b')
    end in
  match st with
  | SExpr t cs => HExpr t cs
  | SAugAssign x cs => HAug x cs
  | SAssignInt x v => HInt x v
  | SFor t it body orelse => HFor t it body orelse (blk body) (blk orelse)
  | SWith ctx body => HWith ctx body (blk body)
  | SIf cond thn els => HIf cond thn els (blk thn) (blk els)
  | SWhile cond body => HWhile cond body (blk body)
  | STry body handler => HTry body handler (blk body) (blk handler)
  | SAssert cond => HAssert cond
  end.

End StmtInd.

(** ** Dynamic semantics, over an abstract library *)

(** The library calls a [for] loop makes on what it iterates: [iter(obj)]
    once, then [next] on the iterator before every iteration and once more
    when the iterator is exhausted (the [StopIteration] of that last call
    ends the loop and is caught by the [for]; any other exception of these
    calls propagates).  Iterating [range(n)] runs no library code. *)
Definition iter_calls (it : iterable) : list call :=
  match it with
  | IRange _ => []
  | IIter obj => ["iter" @@ [obj]]
  end.

Definition next_calls (it : iterable) : list call :=
  match it with
  | IRange _ => []
  | IIter obj => ["next" @@ ["iter(" ++ obj ++ ")"]]
  end.

Section Exec.

(** The library state, its exceptions, the effect of each call (for the
    [next] of a [for] loop, [inl] is a normal return: an element, or the
    [StopIteration] that ends the loop), the number of elements an
    iterable yields from a state (the [next] calls that return one before
    the call that ends the loop), and the truth value of a state (used
    for the conditions of [if], [while] and [assert]), and the exception
    a failing [assert] raises. *)
Variables (St Exn : Type).
Variable lib_call : call -> St -> St + Exn.
Variable iter_len : iterable -> St -> nat.
Variable truthy : St -> bool.
Variable assertion_error : Exn.

Inductive outcome :=
| Ok (s : St)
| Err (e : Exn) (s : St)
| OutOfFuel.

(** Run calls left to right; the first exception stops the run.  The
    result also carries the trace of the calls that were made. *)
Fixpoint run_calls (cs : list call) (s : St) : list call * outcome :=
  match cs with
  | [] => ([], Ok s)
  | c :: cs' =>
      match lib_call c s with
      | inl s' => let '(tr, o) := run_calls cs' s' in (c :: tr, o)
      | inr e => ([c], Err e s)
      end
  end.

(** Sequencing: continue on [Ok], propagate anything else. *)
Definition seq_then (r : list call * outcome)
    (k : St -> list call * outcome) : list call * outcome :=
  let '(tr, o) := r in
  match o with
  | Ok s => let '(tr', o') := k s in ((tr ++ tr')%list, o')
  | _ => (tr, o)
  end.

Fixpoint exec (fuel : nat) (st : stmt) (s : St) {struct st}
    : list call * outcome :=
  let fix exec_block (b : list stmt) (s : St) : list call * outcome :=
    match b with
    | [] => ([], Ok s)
    | st' :: b' => seq_then (exec fuel st' s) (exec_block b')
    end in
  match st with
  | SExpr _ cs => run_calls cs s
  | SAugAssign _ cs => run_calls cs s
  | SAssignInt _ _ => ([], Ok s)
  | SFor _ it body orelse =>
      let fix loop (n : nat) (s : St) : list call * outcome :=
        match n with
        | 0 => seq_then (run_calls (next_calls it) s) (exec_block orelse)
        | S n' =>
            seq_then (run_calls (next_calls it) s)
              (fun s' => seq_then (exec_block body s') (loop n'))
        end in
      seq_then (run_calls (iter_calls it) s) (fun s' => loop (iter_len it s') s')
  | SWith ctx body => seq_then (run_calls [ctx] s) (exec_block body)
  | SIf cond thn els =>
      seq_then (run_calls cond s)
        (fun s' => if truthy s' then exec_block thn s' else exec_block els s')
  | SWhile cond body =>
      let fix wloop (k : nat) (s : St) : list call * outcome :=
        match k with
        | 0 => ([], OutOfFuel)
        | S k' =>
            seq_then (run_calls cond s)
              (fun s' => if truthy s' then seq_then (exec_block body s') (wloop k')
                         else ([], Ok s'))
        end in
      wloop fuel s
  | STry body handler =>
      let '(tr, o) := exec_block body s in
      match o with
      | Err _ s' => let '(tr', o') := exec_block handler s' in ((tr ++ tr')%list, o')
      | _ => (tr, o)
      end
  | SAssert cond =>
      seq_then (run_calls cond s)
        (fun s' => if truthy s' then ([], Ok s') else ([], Err assertion_error s'))
  end.

(** A block of statements, as [exec] runs the blocks nested in a
    statement. *)
Definition exec_block (fuel : nat) : list stmt -> St -> list call * outcome :=
  fix exec_block (b : list stmt) (s : St) : list call * outcome :=
    match b with
    | [] => ([], Ok s)
    | st' :: b' => seq_then (exec fuel st' s) (exec_block b')
    end.

(** [n] iterations of a [for] loop over [it], each after its [next],
    then the [next] that ends the loop and the [else] block. *)
Definition for_loop (fuel : nat) (it : iterable) (body orelse : list stmt)
    : nat -> St -> list call * outcome :=
  fix loop (n : nat) (s : St) : list call * outcome :=
    match n with
    | 0 => seq_then (run_calls (next_calls it) s) (exec_block fuel orelse)
    | S n' =>
        seq_then (run_calls (next_calls it) s)
          (fun s' => seq_then (exec_block fuel body s') (loop n'))
    end.

(** A code cell is a block of statements. *)
Definition exec_cell (fuel : nat) (b : list stmt) (s : St) : list call * outcome :=
  exec_block fuel b s.

(** The outcome of a run is the outcome of making the calls of its trace
    again, in order, from the same state: the first call that raises ends
    the run with its exception, and nothing else decides the outcome. *)
Definition replays (s : St) (r : list call * outcome) : Prop :=
  snd (run_calls (fst r) s) = snd r.

(** A run made the calls [cs]: all of them if it ended normally, a prefix
    of them otherwise. *)
Definition prefix_run (cs : list call) (r : list call * outcome) : Prop :=
  match snd r with
  | Ok _ => fst r = cs
  | _ => exists rest, (fst r ++ rest)%list = cs
  end.

End Exec.

Arguments Ok {St Exn} s.
Arguments Err {St Exn} e s.
Arguments OutOfFuel {St Exn}.

(** ** The code cells *)

(** Recorded outputs of a code cell.  Stream texts are kept line by line,
    without the trailing newline of each line; a display entry keeps the
    MIME types of its data. *)
Inductive output :=
| OStream (name : string) (text : list string)
| ODisplay (mime : list string)
| OExecuteResult (mime : list string)
| OError (ename evalue : string).

Record code_cell := mkcell {
  exec_count : option nat;
  source : list stmt;
  outputs : list output
}.

(** The model used by the cells: [nn.Sequential] over its layers. *)
Definition seq_model (layers : list call) : list call :=
  layers ++ ["nn.Sequential" @@ map (fun c => fn c) layers].

Definition layers_logits : list call :=
  ["nn.Linear" @@ ["784"; "128"]; "nn.ReLU" @@ [];
   "nn.Linear" @@ ["128"; "64"]; "nn.ReLU" @@ [];
   "nn.Linear" @@ ["64"; "10"]].

Definition layers_logps : list call :=
  layers_logits ++ ["nn.LogSoftmax" @@ ["dim=1"]].

(** [images, labels = next(iter(trainloader))] *)
Definition next_batch : stmt :=
  SExpr (Some (TTuple ["images"; "labels"]))
    ["iter" @@ ["trainloader"]; "next" @@ ["iter(trainloader)"]].

(** [images = images.view(images.shape[0], -1)] *)
Definition flatten : stmt :=
  SExpr (Some (TName "images")) ["images.view" @@ ["images.shape[0]"; "-1"]].

(* execution_count 1 *)
Definition src_1 : list stmt :=
  [SExpr None ["import" @@ ["torch"]];
   SExpr None ["import" @@ ["torch.nn"]];
   SExpr None ["import" @@ ["torch.nn.functional"]];
   SExpr None ["import" @@ ["torchvision.datasets"; "torchvision.transforms"]];
   SExpr (Some (TName "transform"))
     ["transforms.ToTensor" @@ [];
      "transforms.Normalize" @@ ["(0.5, 0.5, 0.5)"; "(0.5, 0.5, 0.5)"];
      "transforms.Compose" @@ ["[transforms.ToTensor(), transforms.Normalize(...)]"]];
   SExpr (Some (TName "trainset"))
     ["datasets.MNIST" @@ ["'~/.pytorch/MNIST_data/'"; "download=True"; "train=True";
                          "transform=transform"]];
   SExpr (Some (TName "trainloader"))
     ["torch.utils.data.DataLoader" @@ ["trainset"; "batch_size=64"; "shuffle=True"]]].

(* execution_count 2 *)
Definition src_2 : list stmt :=
  [SExpr (Some (TName "model")) (seq_model layers_logits);
   SExpr (Some (TName "criterion")) ["nn.CrossEntropyLoss" @@ []];
   next_batch;
   flatten;
   SExpr (Some (TName "logits")) ["model" @@ ["images"]];
   SExpr (Some (TName "loss")) ["criterion" @@ ["logits"; "labels"]];
   SExpr None ["print" @@ ["loss"]]].

(* execution_count 3 *)
Definition src_3 : list stmt :=
  [SExpr (Some (TName "model")) (seq_model layers_logps);
   SExpr (Some (TName "criterion")) ["nn.NLLLoss" @@ []];
   next_batch;
   flatten;
   SExpr (Some (TName "logps")) ["model" @@ ["images"]];
   SExpr (Some (TName "loss")) ["criterion" @@ ["logps"; "labels"]];
   SExpr None ["print" @@ ["loss"]]].

(* execution_count 4 *)
Definition src_4 : list stmt :=
  [SExpr (Some (TName "x")) ["torch.randn" @@ ["2"; "2"; "requires_grad=True"]];
   SExpr None ["print" @@ ["x"]]].

(* execution_count 5 *)
Definition src_5 : list stmt :=
  [SExpr (Some (TName "y")) ["**" @@ ["x"; "2"]];
   SExpr None ["print" @@ ["y"]]].

(* execution_count 6 *)
Definition src_6 : list stmt :=
  [SExpr None ["print" @@ ["y.grad_fn"]]].

(* execution_count 7 *)
Definition src_7 : list stmt :=
  [SExpr (Some (TName "z")) ["y.mean" @@ []];
   SExpr None ["print" @@ ["z"]]].

(* execution_count 9 *)
Definition src_9 : list stmt :=
  [SExpr None ["print" @@ ["x.grad"; "y.grad"; "z.grad"]]].

(* execution_count 10 *)
Definition src_10 : list stmt :=
  [SExpr None ["z.backward" @@ []];
   SExpr None ["print" @@ ["x.grad"]];
   SExpr None ["/" @@ ["x"; "2"]; "print" @@ ["x/2"]]].

(* execution_count 11 *)
Definition src_11 : list stmt :=
  [SExpr (Some (TName "model")) (seq_model layers_logps);
   SExpr (Some (TName "criterion")) ["nn.NLLLoss" @@ []];
   next_batch;
   flatten;
   SExpr (Some (TName "logits")) ["model" @@ ["images"]];
   SExpr (Some (TName "loss")) ["criterion" @@ ["logits"; "labels"]]].

(* execution_count 12 *)
Definition src_12 : list stmt :=
  [SExpr None ["print" @@ ["'Before backward pass: \n'"; "model[0].weight.grad"]];
   SExpr None ["loss.backward" @@ []];
   SExpr None ["print" @@ ["'After backward pass: \n'"; "model[0].weight.grad"]]].

(* execution_count 13 *)
Definition src_13 : list stmt :=
  [SExpr None ["import" @@ ["torch.optim"]];
   SExpr (Some (TName "optimizer"))
     ["model.parameters" @@ []; "optim.SGD" @@ ["model.parameters()"; "lr=0.01"]]].

(* execution_count 14 *)
Definition src_14 : list stmt :=
  [SExpr None ["print" @@ ["'Initial weights - '"; "model[0].weight"]];
   next_batch;
   SExpr None ["images.resize_" @@ ["64"; "784"]];
   SExpr None ["optimizer.zero_grad" @@ []];
   SExpr (Some (TName "output")) ["model" @@ ["images"]];
   SExpr (Some (TName "loss")) ["criterion" @@ ["output"; "labels"]];
   SExpr None ["loss.backward" @@ []];
   SExpr None ["print" @@ ["'Gradient -'"; "model[0].weight.grad"]]].

(* execution_count 15 *)
Definition src_15 : list stmt :=
  [SExpr None ["optimizer.step" @@ []];
   SExpr None ["print" @@ ["'Updated weights - '"; "model[0].weight"]]].

(** The body of the inner training loop of execution_count 16. *)
Definition train_body : list stmt :=
  [flatten;
   SExpr None ["optimizer.zero_grad" @@ []];
   SExpr (Some (TName "output")) ["model" @@ ["images"]];
   SExpr (Some (TName "loss")) ["criterion" @@ ["output"; "labels"]];
   SExpr None ["loss.backward" @@ []];
   SExpr None ["optimizer.step" @@ []];
   SAugAssign "running_loss" ["loss.item" @@ []; "+=" @@ ["running_loss"; "loss.item()"]]].

(** [else: print(f"Training loss: {running_loss/len(trainloader)}")] *)
Definition train_else : list stmt :=
  [SExpr None ["len" @@ ["trainloader"];
               "/" @@ ["running_loss"; "len(trainloader)"];
               "print" @@ ["f'Training loss: {running_loss/len(trainloader)}'"]]].

(* execution_count 16 *)
Definition src_16 : list stmt :=
  [SExpr (Some (TName "model")) (seq_model layers_logps);
   SExpr (Some (TName "criterion")) ["nn.NLLLoss" @@ []];
   SExpr (Some (TName "optimizer"))
     ["model.parameters" @@ []; "optim.SGD" @@ ["model.parameters()"; "lr=0.003"]];
   SAssignInt "epochs" 5;
   SFor (TName "e") (IRange "epochs")
     [SAssignInt "running_loss" 0;
      SFor (TTuple ["images"; "labels"]) (IIter "trainloader") train_body train_else]
     []].

(* execution_count 18 *)
Definition src_18 : list stmt :=
  [SExpr None ["%matplotlib" @@ ["inline"]];
   SExpr None ["import" @@ ["helper"]];
   next_batch;
   SExpr (Some (TName "img")) ["images[0].view" @@ ["1"; "784"]];
   SWith ("torch.no_grad" @@ [])
     [SExpr (Some (TName "logps")) ["model" @@ ["img"]]];
   SExpr (Some (TName "ps")) ["torch.exp" @@ ["logps"]];
   SExpr None ["img.view" @@ ["1"; "28"; "28"];
               "helper.view_classify" @@ ["img.view(1, 28, 28)"; "ps"]]].

(* recorded outputs of execution_count 1 *)
Definition out_1 : list output :=
  [].

(* recorded outputs of execution_count 2 *)
Definition out_2 : list output :=
  [OStream "stdout"
      ["tensor(2.3101, grad_fn=<NllLossBackward>)"]].

(* recorded outputs of execution_count 3 *)
Definition out_3 : list output :=
  [OStream "stdout"
      ["tensor(2.3048, grad_fn=<NllLossBackward>)"]].

(* recorded outputs of execution_count 4 *)
Definition out_4 : list output :=
  [OStream "stdout"
      ["tensor([[-1.5367,  1.3747],";
       "        [-0.6888, -1.2932]], requires_grad=True)"]].

(* recorded outputs of execution_count 5 *)
Definition out_5 : list output :=
  [OStream "stdout"
      ["tensor([[2.3614, 1.8898],";
       "        [0.4744, 1.6724]], grad_fn=<PowBackward0>)"]].

(* recorded outputs of execution_count 6 *)
Definition out_6 : list output :=
  [OStream "stdout"
      ["<PowBackward0 object at 0x1232ea9b0>"]].

(* recorded outputs of execution_count 7 *)
Definition out_7 : list output :=
  [OStream "stdout"
      ["tensor(1.5995, grad_fn=<MeanBackward1>)"]].

(* recorded outputs of execution_count 9 *)
Definition out_9 : list output :=
  [OStream "stdout"
      ["None None None"]].

(* recorded outputs of execution_count 10 *)
Definition out_10 : list output :=
  [OStream "stdout"
      ["tensor([[-0.7683,  0.6873],";
       "        [-0.3444, -0.6466]])";
       "tensor([[-0.7683,  0.6873],";
       "        [-0.3444, -0.6466]], grad_fn=<DivBackward0>)"]].

(* recorded outputs of execution_count 11 *)
Definition out_11 : list output :=
  [].

(* recorded outputs of execution_count 12 *)
Definition out_12 : list output :=
  [OStream "stdout"
      ["Before backward pass: ";
       " None";
       "After backward pass: ";
       " tensor([[-0.0023, -0.0023, -0.0023,  ..., -0.0023, -0.0023, -0.0023],";
       "        [ 0.0000,  0.0000,  0.0000,  ...,  0.0000,  0.0000,  0.0000],";
       "        [ 0.0000,  0.0000,  0.0000,  ...,  0.0000,  0.0000,  0.0000],";
       "        ...,";
       "        [-0.0010, -0.0010, -0.0010,  ..., -0.0010, -0.0010, -0.0010],";
       "        [ 0.0027,  0.0027,  0.0027,  ...,  0.0027,  0.0027,  0.0027],";
       "        [ 0.0003,  0.0003,  0.0003,  ...,  0.0003,  0.0003,  0.0003]])"]].

(* recorded outputs of execution_count 13 *)
Definition out_13 : list output :=
  [].

(* recorded outputs of execution_count 14 *)
Definition out_14 : list output :=
  [OStream "stdout"
      ["Initial weights -  Parameter containing:";
       "tensor([[ 1.5425e-02,  2.3794e-02,  3.0812e-02,  ..., -3.0052e-02,";
       "         -2.4703e-02, -3.2205e-02],";
       "        [ 1.6061e-02, -3.4652e-04,  3.5134e-02,  ..., -8.1569e-04,";
       "         -1.7934e-02,  1.7322e-02],";
       "        [ 3.4780e-02,  6.0498e-03, -9.3213e-04,  ..., -7.2209e-03,";
       "         -7.5657e-03,  1.3878e-02],";
       "        ...,";
       "        [-2.8525e-02, -3.1066e-02, -2.5048e-02,  ...,  8.8000e-03,";
       "          2.0230e-02,  1.9758e-02],";
       "        [ 2.9522e-02,  4.6072e-03, -2.6944e-02,  ...,  3.7137e-05,";
       "          1.0792e-02, -2.8270e-03],";
       "        [ 9.6052e-03, -3.4105e-02, -1.7511e-02,  ..., -1.5414e-02,";
       "         -4.0071e-03, -1.1965e-02]], requires_grad=True)";
       "Gradient - tensor([[-0.0025, -0.0025, -0.0025,  ..., -0.0025, -0.0025, -0.0025],";
       "        [ 0.0000,  0.0000,  0.0000,  ...,  0.0000,  0.0000,  0.0000],";
       "        [ 0.0000,  0.0000,  0.0000,  ...,  0.0000,  0.0000,  0.0000],";
       "        ...,";
       "        [-0.0002, -0.0002, -0.0002,  ..., -0.0002, -0.0002, -0.0002],";
       "        [ 0.0005,  0.0005,  0.0005,  ...,  0.0005,  0.0005,  0.0005],";
       "        [ 0.0003,  0.0003,  0.0003,  ...,  0.0003,  0.0003,  0.0003]])"]].

(* recorded outputs of execution_count 15 *)
Definition out_15 : list output :=
  [OStream "stdout"
      ["Updated weights -  Parameter containing:";
       "tensor([[ 1.5450e-02,  2.3819e-02,  3.0837e-02,  ..., -3.0027e-02,";
       "         -2.4678e-02, -3.2181e-02],";
       "        [ 1.6061e-02, -3.4652e-04,  3.5134e-02,  ..., -8.1569e-04,";
       "         -1.7934e-02,  1.7322e-02],";
       "        [ 3.4780e-02,  6.0498e-03, -9.3213e-04,  ..., -7.2209e-03,";
       "         -7.5657e-03,  1.3878e-02],";
       "        ...,";
       "        [-2.8522e-02, -3.1063e-02, -2.5046e-02,  ...,  8.8022e-03,";
       "          2.0232e-02,  1.9760e-02],";
       "        [ 2.9516e-02,  4.6019e-03, -2.6949e-02,  ...,  3.1900e-05,";
       "          1.0786e-02, -2.8322e-03],";
       "        [ 9.6023e-03, -3.4108e-02, -1.7514e-02,  ..., -1.5417e-02,";
       "         -4.0101e-03, -1.1968e-02]], requires_grad=True)"]].

(* recorded outputs of execution_count 16 *)
Definition out_16 : list output :=
  [OStream "stdout"
      ["Training loss: 1.8482103443094917";
       "Training loss: 0.7881349392219393";
       "Training loss: 0.5054461888349386";
       "Training loss: 0.4187001598033824";
       "Training loss: 0.3776651714672285"]].

(* recorded outputs of execution_count 18 *)
Definition out_18 : list output :=
  [ODisplay ["image/png"; "text/plain"]].

(** The code cells of the notebook, in order, with their execution counts. *)
Definition notebook : list code_cell :=
  [mkcell (Some 1) src_1 out_1;
   mkcell (Some 2) src_2 out_2;
   mkcell (Some 3) src_3 out_3;
   mkcell (Some 4) src_4 out_4;
   mkcell (Some 5) src_5 out_5;
   mkcell (Some 6) src_6 out_6;
   mkcell (Some 7) src_7 out_7;
   mkcell (Some 9) src_9 out_9;
   mkcell (Some 10) src_10 out_10;
   mkcell (Some 11) src_11 out_11;
   mkcell (Some 12) src_12 out_12;
   mkcell (Some 13) src_13 out_13;
   mkcell (Some 14) src_14 out_14;
   mkcell (Some 15) src_15 out_15;
   mkcell (Some 16) src_16 out_16;
   mkcell (Some 18) src_18 out_18].

End Notebook.

(** * Reading the recorded outputs *)

Module Recorded.

Import Notebook.
Import QArith.
Local Open Scope string_scope.

(** The cell with a given execution count. *)
Definition cell_with_count (n : nat) : option code_cell :=
  find (fun c => match exec_count c with Some k => Nat.eqb k n | None => false end)
    notebook.

(** The lines a cell wrote to standard output. *)
Definition stdout_lines (c : code_cell) : list string :=
  flat_map (fun o => match o with
                     | OStream "stdout" t => t
                     | _ => []
                     end) (outputs c).

(** Decimal literals as Python prints floats: [-]digits.digits *)
Definition digit_val (c : ascii) : option Z :=
  let n := nat_of_ascii c in
  if (48 <=? n)%nat && (n <=? 57)%nat then Some (Z.of_nat (n - 48)) else None.

(** Read a non-empty run of digits up to the end or up to a stop character;
    returns its value, its length and the rest. *)
Fixpoint read_digits (cs : list ascii) (acc : Z) (len : nat)
    : Z * nat * list ascii :=
  match cs with
  | [] => (acc, len, [])
  | c :: cs' =>
      match digit_val c with
      | Some d => read_digits cs' (10 * acc + d)%Z (S len)
      | None => (acc, len, cs)
      end
  end.

Definition parse_unsigned (cs : list ascii) : option Q :=
  match read_digits cs 0%Z 0 with
  | (ip, S _, "." :: frac) =>
      match read_digits frac 0%Z 0 with
      | (fp, S k, []) =>
          let den := (10 ^ Z.of_nat (S k))%Z in
          Some (Qmake (ip * den + fp) (Z.to_pos den))
      | _ => None
      end
  | _ => None
  end%char.

Definition parse_decimal (s : string) : option Q :=
  match list_ascii_of_string s with
  | "-"%char :: cs => option_map Qopp (parse_unsigned cs)
  | cs => parse_unsigned cs
  end.

Definition strip_prefix (p s : string) : option string :=
  if String.prefix p s
  then Some (substring (String.length p) (String.length s - String.length p) s)
  else None.

(** The value of a line [Training loss: <float>]. *)
Definition training_loss_of_line (l : string) : option Q :=
  match strip_prefix "Training loss: " l with
  | Some v => parse_decimal v
  | None => None
  end.

Fixpoint all_some {A} (l : list (option A)) : option (list A) :=
  match l with
  | [] => Some []
  | Some x :: l' => option_map (cons x) (all_some l')
  | None :: _ => None
  end.

(** The training losses printed by the training cell (execution count 16). *)
(** A cell ran to the end: it has an execution count and its outputs are
    streams and displays only (no error entry). *)
Definition clean_output (o : output) : bool :=
  match o with
  | OStream _ _ | ODisplay _ => true
  | OExecuteResult _ | OError _ _ => false
  end.

Definition ran_to_completion (c : code_cell) : bool :=
  match exec_count c with Some _ => true | None => false end
  && forallb clean_output (outputs c).

Definition recorded_training_losses : option (list Q) :=
  match cell_with_count 16 with
  | Some c => all_some (map training_loss_of_line (stdout_lines c))
  | None => None
  end.

End Recorded.

(** * [torch.utils.data.DataLoader(trainset, batch_size=64, shuffle=True)]

    As documented for the library: with [shuffle=True] each epoch draws a
    fresh random order of the dataset (a [RandomSampler]); a [BatchSampler]
    with [drop_last=False] cuts that order into batches of [batch_size],
    the last one possibly shorter; [default_collate] turns a batch of
    [(image, label)] samples into the pair of the stacked images and the
    stacked labels; and [len(loader)] is
    [(len(dataset) + batch_size - 1) // batch_size]. *)

Module Loader.

Section DataLoader.

Variables (Img Lbl : Type).

(** Cut a list into consecutive pieces of [k] elements; [fuel] bounds the
    number of pieces. *)
Fixpoint chunks_aux {A} (fuel k : nat) (l : list A) : list (list A) :=
  match fuel with
  | 0 => []
  | S fuel' =>
      match l with
      | [] => []
      | _ => firstn k l :: chunks_aux fuel' k (skipn k l)
      end
  end.

Definition chunks {A} (k : nat) (l : list A) : list (list A) :=
  chunks_aux (List.length l) k l.

Definition collate (b : list (Img * Lbl)) : list Img * list Lbl :=
  (map fst b, map snd b).

Definition batches (batch_size : nat) (order : list (Img * Lbl))
    : list (list Img * list Lbl) :=
  map collate (chunks batch_size order).

Definition loader_len (n batch_size : nat) : nat :=
  (n + batch_size - 1) / batch_size.

(** The batches of epoch [e], for the order [sampler e dataset] drawn by the
    random sampler in that epoch. *)
Definition epoch_batches (sampler : nat -> list (Img * Lbl) -> list (Img * Lbl))
    (dataset : list (Img * Lbl)) (batch_size e : nat) : list (list Img * list Lbl) :=
  batches batch_size (sampler e dataset).

End DataLoader.

Definition batch_size : nat := 64.

End Loader.

(** * The training cell (execution count 16) as a functional program

    [for e in range(epochs)]: [running_loss = 0]; for each batch
    [(images, labels)] of the loader: flatten, [optimizer.zero_grad()],
    [output = model(images)], [loss = criterion(output, labels)],
    [loss.backward()], [optimizer.step()],
    [running_loss += loss.item()]; in the [else] clause of the inner loop,
    print [running_loss/len(trainloader)]. *)

Module Train.

Section Train.

(** Image and label batches, the model-and-optimizer state, the network
    output, the loss tensor and Python floats, with the library operations
    the loop calls and the float arithmetic it does. *)
Variables (Imgs Lbls M Out Loss Float : Type).
Variable flatten : Imgs -> Imgs.
Variable zero_grad : M -> M.
Variable forward : M -> Imgs -> Out.
Variable criterion : Out -> Lbls -> Loss.
Variable backward : M -> Loss -> M.
Variable step : M -> M.
Variable item : Loss -> Float.
Variable float_of_int0 : Float.
Variable fadd : Float -> Float -> Float.
Variable fdiv_int : Float -> nat -> Float.
(** [trainloader]: the batches it yields in epoch [e], and [len(trainloader)]. *)
Variable loader : nat -> list (Imgs * Lbls).
Variable loader_len : nat.

(** What the loop does that can be observed: one training pass on a batch
    (with the value of [loss.item()]), and one print. *)
Inductive event :=
| EvStep (e : nat) (b : Imgs * Lbls) (l : Float)
| EvPrint (v : Float).

(** One training pass, as in the loop body. *)
Definition train_pass (m : M) (b : Imgs * Lbls) : M * Float :=
  let '(images, labels) := b in
  let images := flatten images in
  let m := zero_grad m in
  let output := forward m images in
  let loss := criterion output labels in
  let m := backward m loss in
  let m := step m in
  (m, item loss).

(** The inner loop over the batches, threading [running_loss]. *)
Fixpoint inner_loop (e : nat) (m : M) (bs : list (Imgs * Lbls)) (running_loss : Float)
    : M * Float * list event :=
  match bs with
  | [] => (m, running_loss, [])
  | b :: bs' =>
      let '(m', l) := train_pass m b in
      let '(m'', r, evs) := inner_loop e m' bs' (fadd running_loss l) in
      (m'', r, EvStep e b l :: evs)
  end.

(** One iteration of [for e in range(epochs)]: [running_loss = 0], the inner
    loop over [trainloader], then its [else] clause. *)
Definition epoch (m : M) (e : nat) : M * list event :=
  let '(m', running_loss, evs) := inner_loop e m (loader e) float_of_int0 in
  (m', evs ++ [EvPrint (fdiv_int running_loss loader_len)]).

(** Epochs [e], [e+1], ..., [e+k-1]. *)
Fixpoint epochs_from (m : M) (e k : nat) : M * list event :=
  match k with
  | 0 => (m, [])
  | S k' =>
      let '(m', evs) := epoch m e in
      let '(m'', evs') := epochs_from m' (S e) k' in
      (m'', evs ++ evs')
  end.

Definition train (m : M) (epochs : nat) : list event :=
  snd (epochs_from m 0 epochs).

(** Observations on event lists. *)
Definition is_print (ev : event) : bool :=
  match ev with EvPrint _ => true | _ => false end.

Definition step_batch (ev : event) : option (Imgs * Lbls) :=
  match ev with EvStep _ b _ => Some b | _ => None end.

Definition step_loss (ev : event) : option Float :=
  match ev with EvStep _ _ l => Some l | _ => None end.

Definition step_of_epoch (e : nat) (ev : event) : bool :=
  match ev with EvStep e' _ _ => Nat.eqb e e' | _ => false end.

(** The values of [loss.item()] of the training passes in [evs]. *)
Definition losses_of (evs : list event) : list Float :=
  flat_map (fun ev => match ev with EvStep _ _ l => [l] | EvPrint _ => [] end) evs.

(** The batches trained on in epoch [e]. *)
Definition batches_of_epoch (e : nat) (evs : list event) : list (Imgs * Lbls) :=
  flat_map (fun ev => match ev with
                      | EvStep e' b _ => if Nat.eqb e e' then [b] else []
                      | EvPrint _ => []
                      end) evs.

(** The printed values. *)
Definition prints (evs : list event) : list Float :=
  flat_map (fun ev => match ev with EvPrint v => [v] | EvStep _ _ _ => [] end) evs.

(** The events of one epoch: its training passes, then one print of the sum
    of their losses, started from [0], over [len(trainloader)]. *)
Definition epoch_shape (e : nat) (seg : list event) : list event :=
  seg ++ [EvPrint (fdiv_int (fold_left fadd (losses_of seg) float_of_int0) loader_len)].

End Train.

Arguments EvStep {Imgs Lbls Float} e b l.
Arguments EvPrint {Imgs Lbls Float} v.
Arguments is_print {Imgs Lbls Float} ev.
Arguments step_batch {Imgs Lbls Float} ev.
Arguments step_loss {Imgs Lbls Float} ev.
Arguments step_of_epoch {Imgs Lbls Float} e ev.
Arguments losses_of {Imgs Lbls Float} evs.
Arguments batches_of_epoch {Imgs Lbls Float} e evs.
Arguments prints {Imgs Lbls Float} evs.
Arguments epoch_shape {Imgs Lbls Float} float_of_int0 fadd fdiv_int loader_len e seg.

(** [epochs = 5] *)
Definition epochs : nat := 5.

(** The training cell run on [trainloader = DataLoader(trainset,
    batch_size=64, shuffle=True)]: in epoch [e] the loader yields the
    batches of the order [sampler e dataset] drawn by its random sampler,
    and [len(trainloader)] is the number of batches of the dataset. *)
Definition notebook_training (Img Lbl M Out Loss Float : Type)
    (flatten : list Img -> list Img) (zero_grad : M -> M)
    (forward : M -> list Img -> Out) (criterion : Out -> list Lbl -> Loss)
    (backward : M -> Loss -> M) (step : M -> M) (item : Loss -> Float)
    (float_of_int0 : Float) (fadd : Float -> Float -> Float)
    (fdiv_int : Float -> nat -> Float)
    (sampler : nat -> list (Img * Lbl) -> list (Img * Lbl))
    (dataset : list (Img * Lbl)) (m : M) : list (event (list Img) (list Lbl) Float) :=
  train (list Img) (list Lbl) M Out Loss Float flatten zero_grad forward criterion
    backward step item float_of_int0 fadd fdiv_int
    (Loader.epoch_batches Img Lbl sampler dataset Loader.batch_size)
    (Loader.loader_len (List.length dataset) Loader.batch_size) m epochs.

End Train.

(** * Static views of the code cells *)

Module Analysis.

Import Notebook.
Local Open Scope string_scope.

(** All calls of a statement, in source order. *)
Fixpoint stmt_calls (st : stmt) : list call :=
  match st with
  | SExpr _ cs | SAugAssign _ cs | SAssert cs => cs
  | SAssignInt _ _ => []
  | SFor _ _ body orelse => flat_map stmt_calls body ++ flat_map stmt_calls orelse
  | SWith ctx body => ctx :: flat_map stmt_calls body
  | SIf cond thn els => cond ++ flat_map stmt_calls thn ++ flat_map stmt_calls els
  | SWhile cond body => cond ++ flat_map stmt_calls body
  | STry body handler => flat_map stmt_calls body ++ flat_map stmt_calls handler
  end.

Definition notebook_calls : list call :=
  flat_map (fun c => flat_map stmt_calls (source c)) notebook.

(** A statement is free of branching, looping on a condition, exception
    handling and assertions. *)
Fixpoint handler_free (st : stmt) : bool :=
  match st with
  | SExpr _ _ | SAugAssign _ _ | SAssignInt _ _ => true
  | SFor _ _ body orelse => forallb handler_free body && forallb handler_free orelse
  | SWith _ body => forallb handler_free body
  | SIf _ _ _ | SWhile _ _ | STry _ _ | SAssert _ => false
  end.

(** Straight-line statements: expression statements and assignments. *)
Definition straight (st : stmt) : bool :=
  match st with
  | SExpr _ _ | SAugAssign _ _ | SAssignInt _ _ => true
  | _ => false
  end.

(** The places a statement takes elements out of [trainloader], with the
    target the element is assigned to ([None] when it is not assigned). *)
Definition is_iter_trainloader (c : call) : bool :=
  String.eqb (fn c) "iter" && (match args c with [a] => String.eqb a "trainloader" | _ => false end).

Fixpoint loader_uses (st : stmt) : list (option target) :=
  match st with
  | SExpr t cs => if existsb is_iter_trainloader cs then [t] else []
  | SFor t it body orelse =>
      (match it with IIter "trainloader" => [Some t] | _ => [] end)
        ++ flat_map loader_uses body ++ flat_map loader_uses orelse
  | SWith _ body => flat_map loader_uses body
  | SIf _ thn els => flat_map loader_uses thn ++ flat_map loader_uses els
  | SWhile _ body => flat_map loader_uses body
  | STry body handler => flat_map loader_uses body ++ flat_map loader_uses handler
  | SAugAssign _ _ | SAssignInt _ _ | SAssert _ => []
  end.

Definition notebook_loader_uses : list (option target) :=
  flat_map (fun c => flat_map loader_uses (source c)) notebook.

(** The stages of the pipeline the spec describes, and the calls that
    perform each of them. *)
Inductive stage :=
| DataLoading
| ModelDefinition
| LossEvaluation
| GradientComputation
| ParameterUpdate
| Plotting.

Definition stage_eqb (a b : stage) : bool :=
  match a, b with
  | DataLoading, DataLoading | ModelDefinition, ModelDefinition
  | LossEvaluation, LossEvaluation | GradientComputation, GradientComputation
  | ParameterUpdate, ParameterUpdate | Plotting, Plotting => true
  | _, _ => false
  end.

Definition stage_table : list (string * stage) :=
  [("datasets.MNIST", DataLoading);
   ("torch.utils.data.DataLoader", DataLoading);
   ("nn.Linear", ModelDefinition); ("nn.ReLU", ModelDefinition);
   ("nn.LogSoftmax", ModelDefinition); ("nn.Sequential", ModelDefinition);
   ("nn.CrossEntropyLoss", LossEvaluation); ("nn.NLLLoss", LossEvaluation);
   ("criterion", LossEvaluation);
   ("z.backward", GradientComputation); ("loss.backward", GradientComputation);
   ("optim.SGD", ParameterUpdate); ("optimizer.step", ParameterUpdate);
   ("helper.view_classify", Plotting)].

Definition stage_of (c : call) : option stage :=
  option_map snd (find (fun p => String.eqb (fst p) (fn c)) stage_table).

Definition notebook_stages : list stage :=
  flat_map (fun c => match stage_of c with Some st => [st] | None => [] end)
    notebook_calls.

Definition pipeline : list stage :=
  [DataLoading; ModelDefinition; LossEvaluation; GradientComputation;
   ParameterUpdate; Plotting].

Fixpoint first_index (st : stage) (l : list stage) : option nat :=
  match l with
  | [] => None
  | x :: l' => if stage_eqb x st then Some 0 else option_map S (first_index st l')
  end.

Definition layer_ctor (f : string) : bool :=
  existsb (String.eqb f) ["nn.Linear"; "nn.ReLU"; "nn.LogSoftmax"].

(** The trace of one pass of the training loop body, when every call
    returns normally. *)
Definition body_trace_all_ok : list string :=
  map fn (fst (exec_block unit unit (fun _ s => inl s) (fun _ _ => 1%nat)
                 (fun _ => true) tt 0 train_body tt)).

(** The five library steps named by the spec. *)
Definition spec_steps : list string :=
  ["optimizer.zero_grad"; "model"; "criterion"; "loss.backward"; "optimizer.step"].

End Analysis.

(** * Printed tensors

    [print] of a 2-d tensor writes [tensor([[a, b, ...], [c, ...], ...])],
    eliding the middle rows and columns with [...].  We read back the rows
    of each printed tensor as lists of entry texts. *)

Module Printout.

Import Notebook.
Import QArith.
Local Open Scope nat_scope.
Local Open Scope string_scope.

Record scan_state := mkscan {
  depth : nat;
  tok : list ascii;                  (* current entry, reversed *)
  row : list string;                 (* current row, reversed *)
  rows : list (list string);         (* rows of the current tensor, reversed *)
  tensors : list (list (list string)) (* finished tensors, reversed *)
}.

Definition flush (st : scan_state) : scan_state :=
  match tok st with
  | [] => st
  | t => mkscan (depth st) [] (string_of_list_ascii (rev t) :: row st) (rows st) (tensors st)
  end.

Definition scan_char (st : scan_state) (c : ascii) : scan_state :=
  if Ascii.eqb c "[" then let st := flush st in
    mkscan (S (depth st)) [] (row st) (rows st) (tensors st)
  else if Ascii.eqb c "]" then
    let st := flush st in
    match depth st with
    | 2 => mkscan 1 [] [] (rev (row st) :: rows st) (tensors st)
    | 1 => mkscan 0 [] [] [] (rev (rows st) :: tensors st)
    | d => mkscan (pred d) [] (row st) (rows st) (tensors st)
    end
  else if Ascii.eqb c " " || Ascii.eqb c "," then flush st
  else if Nat.eqb (depth st) 2 then
    mkscan (depth st) (c :: tok st) (row st) (rows st) (tensors st)
  else st.

(** The tensors printed in a list of output lines (lines are separated by
    a newline, which the scanner treats as a blank). *)
Definition printed_tensors (lines : list string) : list (list (list string)) :=
  let cs := flat_map (fun l => (list_ascii_of_string l ++ [" "%char])%list) lines in
  rev (tensors (fold_left scan_char cs (mkscan 0 [] [] [] []))).

(** A printed row whose shown entries are all zero. *)
Definition zero_row (r : list string) : bool :=
  forallb (fun t => String.eqb t "..." ||
                    match Recorded.parse_decimal t with
                    | Some q => Qeq_bool q 0%Q
                    | None => false
                    end) r.

Fixpoint indices_where {A} (p : A -> bool) (l : list A) (i : nat) : list nat :=
  match l with
  | [] => []
  | x :: l' => if p x then i :: indices_where p l' (S i) else indices_where p l' (S i)
  end.

Definition cell_tensors (n : nat) : list (list (list string)) :=
  match Recorded.cell_with_count n with
  | Some c => printed_tensors (Recorded.stdout_lines c)
  | None => []
  end.

(** Execution count 14 prints the first layer's weight and then its
    gradient; execution count 15 prints the weight after [optimizer.step()]. *)
Definition weight_before : list (list string) := nth 0 (cell_tensors 14) [].
Definition gradient : list (list string) := nth 1 (cell_tensors 14) [].
Definition weight_after : list (list string) := nth 0 (cell_tensors 15) [].

End Printout.

(** * [torch.optim.SGD(params, lr)] with its defaults

    With [momentum=0], [dampening=0], [weight_decay=0], [nesterov=False] and
    [maximize=False], the documented update of [optimizer.step()] is, for
    every parameter [p] with gradient [g], [p.add_(g, alpha=-lr)].  Entries
    are real numbers here. *)

Module SGD.

Import Reals.
Local Open Scope R_scope.

Definition matrix := list (list R).

Fixpoint zip_with {A B C} (f : A -> B -> C) (l1 : list A) (l2 : list B) : list C :=
  match l1, l2 with
  | x :: l1', y :: l2' => f x y :: zip_with f l1' l2'
  | _, _ => []
  end.

(** [p.add_(g, alpha=-lr)], entrywise. *)
Definition add_alpha (alpha p g : R) : R := p + alpha * g.

Definition sgd_step (lr : R) (W G : matrix) : matrix :=
  zip_with (zip_with (add_alpha (- lr))) W G.

Definition mget (W : matrix) (i j : nat) : option R :=
  match nth_error W i with
  | Some r => nth_error r j
  | None => None
  end.

(** [optim.SGD(model.parameters(), lr=0.01)] of execution count 13. *)
Definition lr_demo : R := / 100.

End SGD.

(** * The network of the training cell, on one input row

    [nn.Linear] computes [x W^T + b]; [nn.ReLU] is [max(0, x)] entrywise;
    [nn.LogSoftmax(dim=1)] maps each row [x] to
    [x_i - log (sum_j exp x_j)].  A batch is processed row by row. *)

Module Net.

Import Reals.
Import Notebook.
Local Open Scope string_scope.
Local Open Scope R_scope.

Inductive layer :=
| Linear (W : list (list R)) (b : list R)
| ReLU
| LogSoftmax.

Definition dot (w x : list R) : R := fold_right Rplus 0 (SGD.zip_with Rmult w x).

Definition sum (x : list R) : R := fold_right Rplus 0 x.

Definition log_softmax (x : list R) : list R :=
  let lse := ln (sum (map exp x)) in
  map (fun v => v - lse) x.

Definition apply_layer (l : layer) (x : list R) : list R :=
  match l with
  | Linear W b => SGD.zip_with Rplus (map (fun w => dot w x) W) b
  | ReLU => map (Rmax 0) x
  | LogSoftmax => log_softmax x
  end.

Definition forward (net : list layer) (x : list R) : list R :=
  fold_left (fun x l => apply_layer l x) net x.

(** [model(images)] on a batch: one output row per input row. *)
Definition forward_batch (net : list layer) (images : list (list R)) : list (list R) :=
  map (forward net) images.

(** The layer constructors of the source, with their sizes. *)
Inductive arch :=
| ALinear (i o : nat)
| AReLU
| ALogSoftmax.

Definition render (a : arch) : call :=
  match a with
  | ALinear i o =>
      "nn.Linear" @@ [DecimalString.NilZero.string_of_uint (Nat.to_uint i);
                      DecimalString.NilZero.string_of_uint (Nat.to_uint o)]
  | AReLU => "nn.ReLU" @@ []
  | ALogSoftmax => "nn.LogSoftmax" @@ ["dim=1"]
  end.

(** The architecture of the trained model. *)
Definition trained_arch : list arch :=
  [ALinear 784 128; AReLU; ALinear 128 64; AReLU; ALinear 64 10; ALogSoftmax].

(** Parameters of the shapes [nn.Linear(i, o)] creates: a weight of [o]
    rows of length [i] and a bias of length [o]. *)
Definition layer_shaped (a : arch) (l : layer) : bool :=
  match a, l with
  | ALinear i o, Linear W b =>
      Nat.eqb (List.length W) o && forallb (fun r => Nat.eqb (List.length r) i) W
      && Nat.eqb (List.length b) o
  | AReLU, ReLU | ALogSoftmax, LogSoftmax => true
  | _, _ => false
  end.

Fixpoint shaped (arch : list arch) (net : list layer) : bool :=
  match arch, net with
  | [], [] => true
  | a :: arch', l :: net' => layer_shaped a l && shaped arch' net'
  | _, _ => false
  end.

End Net.

(** * The layer stacks of the [nn.Sequential] models

    Reading a layer call back as its architecture, the width a stack maps
    its input to, and the forward pass with the shape check of PyTorch:
    [nn.Linear] raises when the input row does not have as many entries as
    the rows of its weight. *)

Module Arch.

Import Reals.
Import Notebook Net.
Local Open Scope string_scope.

Definition nat_of_text (s : string) : option nat :=
  option_map Nat.of_uint (DecimalString.NilZero.uint_of_string s).

Definition parse_layer (c : call) : option arch :=
  if String.eqb (fn c) "nn.Linear" then
    match args c with
    | [i; o] =>
        match nat_of_text i, nat_of_text o with
        | Some i, Some o => Some (ALinear i o)
        | _, _ => None
        end
    | _ => None
    end
  else if String.eqb (fn c) "nn.ReLU" then
    match args c with [] => Some AReLU | _ => None end
  else if String.eqb (fn c) "nn.LogSoftmax" then
    match args c with ["dim=1"] => Some ALogSoftmax | _ => None end
  else None.

Fixpoint parse_layers (cs : list call) : option (list arch) :=
  match cs with
  | [] => Some []
  | c :: cs' =>
      match parse_layer c, parse_layers cs' with
      | Some a, Some r => Some (a :: r)
      | _, _ => None
      end
  end.

(** The width of the output of a stack on inputs of width [i], if every
    [nn.Linear] gets inputs of its [in_features]. *)
Fixpoint chain (i : nat) (a : list arch) : option nat :=
  match a with
  | [] => Some i
  | ALinear i' o :: a' => if Nat.eqb i i' then chain o a' else None
  | AReLU :: a' | ALogSoftmax :: a' => chain i a'
  end.

(** The layer lists of the [nn.Sequential(...)] assignments of a cell. *)
Definition sequential_layers (b : list stmt) : list (list call) :=
  flat_map (fun st =>
              match st with
              | SExpr _ cs =>
                  match rev cs with
                  | c :: rest => if String.eqb (fn c) "nn.Sequential" then [rev rest] else []
                  | [] => []
                  end
              | _ => []
              end) b.

Definition notebook_models : list (list call) :=
  flat_map (fun c => sequential_layers (source c)) notebook.

Definition apply_checked (l : layer) (x : list R) : option (list R) :=
  match l with
  | Linear W b =>
      if forallb (fun w => Nat.eqb (List.length w) (List.length x)) W
      then Some (apply_layer l x) else None
  | _ => Some (apply_layer l x)
  end.

Fixpoint forward_checked (net : list layer) (x : list R) : option (list R) :=
  match net with
  | [] => Some x
  | l :: net' =>
      match apply_checked l x with
      | Some y => forward_checked net' y
      | None => None
      end
  end.

End Arch.

(** * Autograd on the demonstration tensor

    [y = x**2] squares every entry, [z = y.mean()] is the sum of the
    entries over their number, and [z.backward()] stores in [x.grad] the
    partial derivatives of [z] in the entries of [x]. *)

Module Autograd.

Import Reals.
Local Open Scope R_scope.

Definition matrix := list (list R).

(** [x**2] *)
Definition pow2 (x : matrix) : matrix := map (map (fun a => a ^ 2)) x.

Definition numel (x : matrix) : nat :=
  fold_right (fun r n => (List.length r + n)%nat) 0%nat x.

Definition sum_all (x : matrix) : R := fold_right (fun r s => Net.sum r + s) 0 x.

(** [.mean()] *)
Definition mean (x : matrix) : R := sum_all x / INR (numel x).

(** [z = (x**2).mean()] *)
Definition z_of (x : matrix) : R := mean (pow2 x).

(** [x / 2] *)
Definition half (x : matrix) : matrix := map (map (fun a => a / 2)) x.

Fixpoint set_nth {A} (l : list A) (i : nat) (a : A) : list A :=
  match l, i with
  | [], _ => []
  | _ :: l', 0%nat => a :: l'
  | b :: l', S i' => b :: set_nth l' i' a
  end.

(** [x] with entry [(i, j)] replaced by [t]. *)
Definition set_entry (x : matrix) (i j : nat) (t : R) : matrix :=
  match nth_error x i with
  | Some r => set_nth x i (set_nth r j t)
  | None => x
  end.

End Autograd.

(** * [nn.NLLLoss()] and [nn.CrossEntropyLoss()]

    With the default [reduction='mean'] and no class weights: for a batch of
    rows [x] and class indices [y], NLLLoss is the mean over the batch of
    [- x[y]], and CrossEntropyLoss the mean of
    [- x[y] + log (sum_j exp x[j])].  A batch whose number of rows differs
    from the number of labels, or a label that is not a column of its row,
    raises ([None]).  (On an empty batch PyTorch returns [nan], which this
    real-valued model does not represent: the theorems take nonempty
    batches.) *)

Module Loss.

Import Reals.
Local Open Scope R_scope.

Fixpoint batch_sum (f : list R -> nat -> option R) (rows : list (list R)) (labels : list nat)
    : option R :=
  match rows, labels with
  | [], [] => Some 0
  | r :: rows', y :: labels' =>
      match f r y, batch_sum f rows' labels' with
      | Some v, Some s => Some (v + s)
      | _, _ => None
      end
  | _, _ => None
  end.

Definition batch_mean (f : list R -> nat -> option R) (rows : list (list R))
    (labels : list nat) : option R :=
  option_map (fun s => s / INR (List.length rows)) (batch_sum f rows labels).

Definition nll_row (logp : list R) (y : nat) : option R :=
  option_map Ropp (nth_error logp y).

Definition nll (logps : list (list R)) (labels : list nat) : option R :=
  batch_mean nll_row logps labels.

Definition ce_row (x : list R) (y : nat) : option R :=
  option_map (fun xy => - xy + ln (Net.sum (map exp x))) (nth_error x y).

Definition cross_entropy (logits : list (list R)) (labels : list nat) : option R :=
  batch_mean ce_row logits labels.

End Loss.

(** * [criterion(model(images), labels)] with the checks of PyTorch

    [model(images)] raises when a row reaches an [nn.Linear] whose
    [in_features] is not its width.  [nn.NLLLoss()] takes integer targets
    (an int64 tensor), with [ignore_index=-100] and [reduction='mean']: it
    raises when the input and the targets differ in batch size, and when a
    target other than [-100] is negative or not below the number of
    classes; it skips the rows whose target is [-100], and returns the sum
    of [-logp[i][t_i]] over the other rows divided by their number, NaN
    ([0/0]) when there is none. *)

Module Criterion.

Import Reals.
Local Open Scope R_scope.

Inductive value :=
| Num (r : R)
| NaN.





End Criterion.

(** * Tensors, [view] and indexing

    A contiguous tensor is its shape and its entries in row-major order.
    [t.view(d1, ..., dk)] keeps the entries and changes the shape; one
    [-1] ([None]) stands for the size that makes the number of entries
    agree.  It raises when more than one [-1] is given, when the sizes do
    not fit the number of entries, or when a [-1] is given beside a size
    [0].  [t[i]] is the [i]-th block along the first dimension. *)

Module View.

Record tensor (A : Type) := mktensor { shape : list nat; data : list A }.
Arguments mktensor {A} shape data.
Arguments shape {A} t.
Arguments data {A} t.

Definition prod (s : list nat) : nat := fold_right Nat.mul 1 s.

Definition numel {A} (t : tensor A) : nat := prod (shape t).

Definition fill (k : nat) (d : option nat) : nat :=
  match d with Some n => n | None => k end.

Definition is_infer (d : option nat) : bool :=
  match d with None => true | Some _ => false end.

Definition view {A} (t : tensor A) (dims : list (option nat)) : option (tensor A) :=
  let known := prod (map (fill 1) dims) in
  match List.length (filter is_infer dims) with
  | 0 => if Nat.eqb known (numel t) then Some (mktensor (map (fill 0) dims) (data t))
         else None
  | 1 => if Nat.eqb known 0 then None
         else if Nat.eqb (numel t mod known) 0
         then Some (mktensor (map (fill (numel t / known)) dims) (data t))
         else None
  | _ => None
  end.

Definition index {A} (t : tensor A) (i : nat) : option (tensor A) :=
  match shape t with
  | [] => None
  | n :: s =>
      if Nat.ltb i n
      then Some (mktensor s (firstn (prod s) (skipn (i * prod s) (data t))))
      else None
  end.

End View.

(** * The transform of the training set

    [transforms.ToTensor()] maps a pixel byte [p] to [p / 255];
    [transforms.Normalize(mean, std)] of the torchvision of the recorded
    run walks [zip(tensor, mean, std)] and normalises channel [c] in place
    to [(v - mean[c]) / std[c]]: the channels beyond the shorter of the
    lists are left as they are.  An image is the list of its channels, each
    the list of its pixels. *)

Module Transform.

Import Reals.
Local Open Scope R_scope.

Definition to_tensor (img : list (list nat)) : list (list R) :=
  map (map (fun p => INR p / 255)) img.

Fixpoint normalize (chs : list (list R)) (mean std : list R) : list (list R) :=
  match chs, mean, std with
  | c :: chs', m :: mean', s :: std' => map (fun v => (v - m) / s) c :: normalize chs' mean' std'
  | _, _, _ => chs
  end.

(** [transforms.Compose([ToTensor(), Normalize((0.5, 0.5, 0.5), (0.5, 0.5, 0.5))])] *)
Definition transform (img : list (list nat)) : list (list R) :=
  normalize (to_tensor img) [/ 2; / 2; / 2] [/ 2; / 2; / 2].

End Transform.

(** * Gradients of a parameter entry

    [loss.backward()] adds the new gradient to [.grad] (setting it when
    [.grad] is [None]); [optimizer.zero_grad()] clears [.grad], by zeroing
    it or, with [set_to_none], by resetting it to [None]; [optimizer.step()]
    of SGD skips a parameter whose [.grad] is [None]. *)

Module Grad.

Import Reals.
Local Open Scope R_scope.

Record param := mkparam { value : R; grad : option R }.

Definition backward (g : R) (p : param) : param :=
  mkparam (value p) (Some (match grad p with None => g | Some h => h + g end)).

Definition zero_grad (set_to_none : bool) (p : param) : param :=
  mkparam (value p) (if set_to_none then None else option_map (fun _ => 0) (grad p)).

Definition step (lr : R) (p : param) : param :=
  match grad p with
  | Some g => mkparam (SGD.add_alpha (- lr) (value p) g) (grad p)
  | None => p
  end.

End Grad.

(** * Properties *)

Module Proofs.

Import Notebook Analysis.
Local Open Scope string_scope.

(** ** The recorded training losses *)

(** C1: in the recorded run of the training cell, the five printed
    training losses are strictly decreasing: each epoch's printed loss is
    less than the previous epoch's. *)
Theorem recorded_losses_strictly_decrease :
  exists ls : list QArith_base.Q,
    Recorded.recorded_training_losses = Some ls /\ List.length ls = 5 /\
    Sorted (fun a b => QArith_base.Qlt b a) ls.
Proof.
  eexists; split; [vm_compute; reflexivity|]; split; [reflexivity|].
  repeat (apply Sorted_cons || apply Sorted_nil || apply HdRel_cons || apply HdRel_nil);
    vm_compute; reflexivity.
Qed.

(** ** Recorded outputs *)

(** C5: every code cell of the recorded run has an execution count and
    only stream and display outputs; no cell recorded an error. *)
Theorem every_cell_ran_without_error :
  Forall (fun c => exec_count c <> None /\
                   Forall (fun o => Recorded.clean_output o = true) (outputs c))
    notebook.
Proof.
  assert (H : forallb Recorded.ran_to_completion notebook = true) by (vm_compute; reflexivity).
  apply Forall_forall; intros c Hc.
  pose proof (proj1 (forallb_forall _ _) H c Hc) as Hr.
  unfold Recorded.ran_to_completion in Hr; apply andb_prop in Hr as [H1 H2].
  split.
  - destruct (exec_count c); [discriminate | discriminate H1].
  - apply Forall_forall; intros o Ho; exact (proj1 (forallb_forall _ _) H2 o Ho).
Qed.

(** ** The order of the narrative *)

(** C4: the notebook introduces the stages of the pipeline in order: data
    loading (through [datasets.MNIST]), the model as an [nn.Sequential] of
    [nn.Linear]/[nn.ReLU]/[nn.LogSoftmax] layers, the loss criterion,
    gradient computation by [backward], parameter update by the optimizer,
    and, last, the plotting helper [helper.view_classify], called once. *)
Theorem notebook_follows_pipeline :
  (exists idx : list nat,
      map (fun st => first_index st notebook_stages) pipeline = map Some idx /\
      Sorted lt idx) /\
  option_map fn (find (fun c => match stage_of c with
                                | Some DataLoading => true
                                | _ => false
                                end) notebook_calls) = Some "datasets.MNIST" /\
  (forall c, In c notebook_calls -> fn c = "nn.Sequential" ->
             Forall (fun a => layer_ctor a = true) (args c)) /\
  filter (stage_eqb Plotting) notebook_stages = [Plotting] /\
  last notebook_stages DataLoading = Plotting.
Proof.
  split; [|split; [|split]].
  - exists [0; 2; 8; 19; 30; 46]; split; [vm_compute; reflexivity|].
    repeat (apply Sorted_cons || apply Sorted_nil || apply HdRel_cons || apply HdRel_nil);
      lia.
  - vm_compute; reflexivity.
  - intros c Hc Hf.
    assert (H : forallb (fun c => negb (String.eqb (fn c) "nn.Sequential")
                                  || forallb layer_ctor (args c)) notebook_calls = true)
      by (vm_compute; reflexivity).
    pose proof (proj1 (forallb_forall _ _) H c Hc) as Hr; simpl in Hr.
    rewrite Hf in Hr; simpl in Hr.
    apply Forall_forall; intros a Ha; exact (proj1 (forallb_forall _ _) Hr a Ha).
  - split; vm_compute; reflexivity.
Qed.

(** ** The training data loader *)

Lemma chunks_aux_piece_length {A} (fuel k : nat) (l : list A) (ch : list A) :
  0 < k -> In ch (Loader.chunks_aux fuel k l) -> 0 < List.length ch <= k.
Proof.
  revert l; induction fuel as [|fuel IH]; intros l Hk Hin; simpl in Hin.
  - contradiction.
  - destruct l as [|x l']; [contradiction|].
    destruct Hin as [<- | Hin].
    + rewrite length_firstn; simpl; lia.
    + exact (IH _ Hk Hin).
Qed.

(** C7: every element the training loader yields is a pair of an image
    batch and the label batch of the same samples (at most 64 of them, at
    least one), and every place the notebook takes elements out of
    [trainloader] ([next(iter(trainloader))] and the training [for] loop)
    unpacks the element into the two names [images, labels]. *)
Theorem loader_yields_image_label_pairs :
  In ("torch.utils.data.DataLoader" @@ ["trainset"; "batch_size=64"; "shuffle=True"])
     notebook_calls /\
  notebook_loader_uses = repeat (Some (TTuple ["images"; "labels"])) 6 /\
  (forall (Img Lbl : Type) (sampler : nat -> list (Img * Lbl) -> list (Img * Lbl))
          (dataset : list (Img * Lbl)) (e : nat) (b : list Img * list Lbl),
      In b (Loader.epoch_batches Img Lbl sampler dataset Loader.batch_size e) ->
      exists samples : list (Img * Lbl),
        b = (map fst samples, map snd samples) /\
        0 < List.length samples <= Loader.batch_size).
Proof.
  split; [|split].
  - unfold notebook_calls; simpl.
    repeat (first [left; reflexivity | right]).
  - vm_compute; reflexivity.
  - intros Img Lbl sampler dataset e b Hb.
    unfold Loader.epoch_batches, Loader.batches, Loader.collate in Hb.
    apply in_map_iff in Hb as [samples [<- Hin]].
    exists samples; split; [reflexivity|].
    apply (chunks_aux_piece_length _ _ _ _ (Nat.lt_0_succ 63) Hin).
Qed.

(** ** Running cells *)

Section ExecFacts.

Variables (St Exn : Type).
Variable lib_call : call -> St -> St + Exn.
Variable iter_len : iterable -> St -> nat.
Variable truthy : St -> bool.
Variable assertion_error : Exn.

Local Notation run_calls := (run_calls St Exn lib_call).
Local Notation seq_then := (seq_then St Exn).
Local Notation exec := (exec St Exn lib_call iter_len truthy assertion_error).
Local Notation exec_block := (exec_block St Exn lib_call iter_len truthy assertion_error).
Local Notation for_loop := (for_loop St Exn lib_call iter_len truthy assertion_error).
Local Notation replays := (replays St Exn lib_call).

Lemma run_calls_cons (c : call) (cs : list call) (s : St) :
  run_calls (c :: cs) s =
  match lib_call c s with
  | inl s' => (c :: fst (run_calls cs s'), snd (run_calls cs s'))
  | inr e => ([c], Err e s)
  end.
Proof.
  simpl; destruct (lib_call c s) as [s'|e]; [|reflexivity].
  destruct (run_calls cs s'); reflexivity.
Qed.

Lemma run_calls_app (l1 l2 : list call) (s : St) :
  snd (run_calls (l1 ++ l2) s) =
  match snd (run_calls l1 s) with
  | Ok s1 => snd (run_calls l2 s1)
  | o => o
  end.
Proof.
  revert s; induction l1 as [|c l1 IH]; intros s; [reflexivity|].
  rewrite <- app_comm_cons, !run_calls_cons.
  destruct (lib_call c s) as [s'|e]; simpl; [apply IH | reflexivity].
Qed.

Lemma run_calls_replays (cs : list call) (s : St) : replays s (run_calls cs s).
Proof.
  unfold replays; revert s; induction cs as [|c cs IH]; intros s; [reflexivity|].
  rewrite (run_calls_cons c cs s).
  destruct (lib_call c s) as [s'|e] eqn:Hc; cbn [fst snd];
    rewrite run_calls_cons, Hc; cbn [fst snd]; [apply IH | reflexivity].
Qed.

Lemma seq_then_replays (s : St) (r : list call * outcome St Exn)
    (k : St -> list call * outcome St Exn) :
  replays s r -> (forall s1, snd r = Ok s1 -> replays s1 (k s1)) ->
  replays s (seq_then r k).
Proof.
  destruct r as [tr o]; unfold replays; simpl; intros Hr Hk.
  destruct o as [s1| |]; simpl; [|exact Hr|exact Hr].
  specialize (Hk s1 eq_refl).
  destruct (k s1) as [tr' o'] eqn:E; simpl in *.
  rewrite run_calls_app, Hr; exact Hk.
Qed.

Lemma exec_block_cons (fuel : nat) (st : stmt) (b : list stmt) (s : St) :
  exec_block fuel (st :: b) s = seq_then (exec fuel st s) (exec_block fuel b).
Proof. reflexivity. Qed.

Lemma exec_for (fuel : nat) t it body orelse (s : St) :
  exec fuel (SFor t it body orelse) s =
  seq_then (run_calls (iter_calls it) s)
    (fun s' => for_loop fuel it body orelse (iter_len it s') s').
Proof. reflexivity. Qed.

Lemma exec_with (fuel : nat) ctx body (s : St) :
  exec fuel (SWith ctx body) s = seq_then (run_calls [ctx] s) (exec_block fuel body).
Proof. reflexivity. Qed.

Lemma exec_block_replays (fuel : nat) (b : list stmt) :
  Forall (fun st => forall s, handler_free st = true -> replays s (exec fuel st s)) b ->
  forallb handler_free b = true ->
  forall s, replays s (exec_block fuel b s).
Proof.
  induction 1 as [|st b Hst Hb IH]; intros Hhf s; [reflexivity|].
  simpl in Hhf; apply andb_prop in Hhf as [H1 H2].
  rewrite exec_block_cons; apply seq_then_replays; [now apply Hst|].
  intros s1 _; now apply IH.
Qed.

Lemma exec_replays (fuel : nat) (st : stmt) :
  forall s, handler_free st = true -> replays s (exec fuel st s).
Proof.
  induction st as [t cs|x cs|x v|t it body orelse Hbody Horelse|ctx body Hbody
                  |cond thn els _ _|cond body _|body handler _ _|cond]
    using stmt_ind'; intros s Hhf; simpl in Hhf; try discriminate.
  - apply run_calls_replays.
  - apply run_calls_replays.
  - reflexivity.
  - apply andb_prop in Hhf as [H1 H2].
    rewrite exec_for; apply seq_then_replays; [apply run_calls_replays|].
    intros s0 _; generalize (iter_len it s0) as n; intros n; revert s0.
    induction n as [|n IH]; intros s0; simpl;
      (apply seq_then_replays; [apply run_calls_replays|]); intros s1 _.
    + now apply exec_block_replays.
    + apply seq_then_replays; [now apply exec_block_replays|].
      intros s2 _; apply IH.
  - rewrite exec_with; apply seq_then_replays; [apply run_calls_replays|].
    intros s1 _; now apply exec_block_replays.
Qed.

Lemma exec_cell_replays (fuel : nat) (b : list stmt) (s : St) :
  forallb handler_free b = true ->
  replays s (exec_cell St Exn lib_call iter_len truthy assertion_error fuel b s).
Proof.
  intros Hhf; unfold exec_cell; apply exec_block_replays; [|exact Hhf].
  apply Forall_forall; intros st _ s'; apply exec_replays.
Qed.

Lemma run_calls_prefix (cs : list call) (s : St) :
  prefix_run St Exn cs (run_calls cs s).
Proof.
  unfold prefix_run; revert s; induction cs as [|c cs IH]; intros s; [reflexivity|].
  rewrite run_calls_cons; destruct (lib_call c s) as [s'|e]; cbn [fst snd].
  - specialize (IH s'); destruct (snd (run_calls cs s')).
    + now rewrite IH.
    + destruct IH as [rest Hr]; exists rest; simpl; now rewrite Hr.
    + destruct IH as [rest Hr]; exists rest; simpl; now rewrite Hr.
  - now exists cs.
Qed.

Lemma exec_straight (fuel : nat) (st : stmt) (s : St) :
  straight st = true -> exec fuel st s = run_calls (stmt_calls st) s.
Proof. destruct st; simpl; intros H; try discriminate; reflexivity. Qed.

Lemma exec_block_straight (fuel : nat) (b : list stmt) (s : St) :
  forallb straight b = true ->
  prefix_run St Exn (flat_map stmt_calls b) (exec_block fuel b s).
Proof.
  revert s; induction b as [|st b IH]; intros s Hb; [reflexivity|].
  simpl in Hb; apply andb_prop in Hb as [H1 H2].
  rewrite exec_block_cons, (exec_straight _ _ _ H1).
  pose proof (run_calls_prefix (stmt_calls st) s) as Hp.
  unfold prefix_run in *; simpl flat_map.
  destruct (run_calls (stmt_calls st) s) as [tr o]; cbn [fst snd] in Hp.
  destruct o as [s1| e s1 |]; simpl.
  - specialize (IH s1 H2); subst tr.
    destruct (exec_block fuel b s1) as [tr' o']; cbn [fst snd] in *.
    destruct o'.
    + now rewrite IH.
    + destruct IH as [rest <-]; exists rest; now rewrite app_assoc.
    + destruct IH as [rest <-]; exists rest; now rewrite app_assoc.
  - destruct Hp as [rest <-]; exists (rest ++ flat_map stmt_calls b)%list.
    now rewrite app_assoc.
  - destruct Hp as [rest <-]; exists (rest ++ flat_map stmt_calls b)%list.
    now rewrite app_assoc.
Qed.

End ExecFacts.

(** ** No error handling *)

(** C6: no code cell contains exception handling, a condition, an
    assertion or a retry loop ([try], [if], [assert], [while]); hence, for
    every behaviour of the library, running a cell has the outcome of
    making its library calls in order (with the [iter] and [next] calls of
    a [for] loop over [trainloader]): an exception raised by a call ends
    the cell with that exception, uncaught. *)
Theorem cells_propagate_library_exceptions
    (St Exn : Type) (lib_call : call -> St -> St + Exn)
    (iter_len : iterable -> St -> nat) (truthy : St -> bool) (assertion_error : Exn)
    (fuel : nat) (c : code_cell) (s : St) (Hc : In c notebook) :
  forallb handler_free (source c) = true /\
  replays St Exn lib_call s
    (exec_cell St Exn lib_call iter_len truthy assertion_error fuel (source c) s).
Proof.
  assert (Hhf : forallb handler_free (source c) = true).
  { assert (H : forallb (fun c => forallb handler_free (source c)) notebook = true)
      by (vm_compute; reflexivity).
    exact (proj1 (forallb_forall _ _) H c Hc). }
  split; [exact Hhf|].
  now apply exec_cell_replays.
Qed.

(** ** The steps of a training iteration *)

(** C2 (as stated): one pass of the training loop body makes exactly the
    five library steps, in order.  It does not: it also flattens the batch
    with [images.view] before them, and accumulates [loss.item()] into
    [running_loss] after them. *)
Lemma training_body_is_not_just_the_five_steps :
  body_trace_all_ok <> spec_steps.
Proof. vm_compute; discriminate. Qed.

(** C2 (amended): the body of the inner training loop, nested in
    [for e in range(epochs)], flattens the batch ([images.view]), then
    makes the five library steps in order ([optimizer.zero_grad()],
    [model(images)], [criterion(output, labels)], [loss.backward()],
    [optimizer.step()]), then adds [loss.item()] to [running_loss]; the
    training cell has no condition, exception handling or retry; and for
    every behaviour of the library, one pass of the body makes exactly
    these calls in this order when none raises, and a prefix of them
    otherwise. *)
Theorem training_body_steps_in_order :
  map fn (flat_map stmt_calls train_body) =
    (["images.view"] ++ spec_steps ++ ["loss.item"; "+="])%list /\
  nth_error src_16 4 =
    Some (SFor (TName "e") (IRange "epochs")
            [SAssignInt "running_loss" 0;
             SFor (TTuple ["images"; "labels"]) (IIter "trainloader")
               train_body train_else]
            []) /\
  forallb handler_free src_16 = true /\
  (forall (St Exn : Type) (lib_call : call -> St -> St + Exn)
          (iter_len : iterable -> St -> nat) (truthy : St -> bool)
          (assertion_error : Exn) (fuel : nat) (s : St),
      prefix_run St Exn (flat_map stmt_calls train_body)
        (exec_block St Exn lib_call iter_len truthy assertion_error fuel train_body s)).
Proof.
  split; [reflexivity|]; split; [reflexivity|]; split; [vm_compute; reflexivity|].
  intros; apply exec_block_straight; reflexivity.
Qed.

(** ** The training loop *)

(** Case analysis on the boolean comparisons of naturals in the goal. *)
Ltac nat_bool_cases :=
  repeat match goal with
         | |- context [Nat.leb ?a ?b] => destruct (Nat.leb a b) eqn:?
         | |- context [Nat.ltb ?a ?b] => destruct (Nat.ltb a b) eqn:?
         end;
  repeat match goal with
         | H : Nat.leb _ _ = true |- _ => apply Nat.leb_le in H
         | H : Nat.leb _ _ = false |- _ => apply Nat.leb_gt in H
         | H : Nat.ltb _ _ = true |- _ => apply Nat.ltb_lt in H
         | H : Nat.ltb _ _ = false |- _ => apply Nat.ltb_ge in H
         end.

Section TrainFacts.

Local Open Scope nat_scope.
Local Open Scope list_scope.

Variables (Imgs Lbls M Out Loss Float : Type).
Variable flatten : Imgs -> Imgs.
Variable zero_grad : M -> M.
Variable forward : M -> Imgs -> Out.
Variable criterion : Out -> Lbls -> Loss.
Variable backward : M -> Loss -> M.
Variable step : M -> M.
Variable item : Loss -> Float.
Variable float_of_int0 : Float.
Variable fadd : Float -> Float -> Float.
Variable fdiv_int : Float -> nat -> Float.
Variable loader : nat -> list (Imgs * Lbls).
Variable loader_len : nat.

Local Notation event := (Train.event Imgs Lbls Float).
Local Notation inner_loop :=
  (Train.inner_loop Imgs Lbls M Out Loss Float flatten zero_grad forward criterion
     backward step item fadd).
Local Notation epochs_from :=
  (Train.epochs_from Imgs Lbls M Out Loss Float flatten zero_grad forward criterion
     backward step item float_of_int0 fadd fdiv_int loader loader_len).
Local Notation epoch_shape := (Train.epoch_shape float_of_int0 fadd fdiv_int loader_len).

Lemma batches_of_epoch_app (e : nat) (l1 l2 : list event) :
  Train.batches_of_epoch e (l1 ++ l2) =
  Train.batches_of_epoch e l1 ++ Train.batches_of_epoch e l2.
Proof. apply flat_map_app. Qed.

Lemma prints_app (l1 l2 : list event) :
  Train.prints (l1 ++ l2) = Train.prints l1 ++ Train.prints l2.
Proof. apply flat_map_app. Qed.

(** The inner loop of epoch [e] trains on the batches [bs], in order, one
    event per batch, prints nothing, and returns the running sum of the
    losses. *)
Lemma inner_loop_spec (e : nat) (bs : list (Imgs * Lbls)) :
  forall (m : M) (r : Float),
    let '(m', r', evs) := inner_loop e m bs r in
    Train.batches_of_epoch e evs = bs /\
    (forall e', e' <> e -> Train.batches_of_epoch e' evs = []) /\
    Train.prints evs = [] /\
    Forall (fun ev => Train.step_of_epoch e ev = true) evs /\
    List.length (Train.losses_of evs) = List.length bs /\
    r' = fold_left fadd (Train.losses_of evs) r.
Proof.
  induction bs as [|b bs IH]; intros m r; simpl.
  - repeat split; auto.
  - destruct (Train.train_pass Imgs Lbls M Out Loss Float flatten zero_grad forward
                criterion backward step item m b) as [m1 l].
    specialize (IH m1 (fadd r l)).
    destruct (inner_loop e m1 bs (fadd r l)) as [[m2 r2] evs].
    destruct IH as (H1 & H2 & H3 & H4 & H6 & H5).
    cbn [Train.batches_of_epoch Train.prints Train.losses_of flat_map].
    rewrite Nat.eqb_refl; cbn [app].
    fold (Train.batches_of_epoch e evs) (Train.prints evs) (Train.losses_of evs).
    repeat split.
    + now rewrite H1.
    + intros e' He'; rewrite (proj2 (Nat.eqb_neq e' e) He'); now apply H2.
    + exact H3.
    + constructor; [apply Nat.eqb_refl | exact H4].
    + simpl; now rewrite H6.
    + exact H5.
Qed.

(** The epochs [e0], ..., [e0+k-1]: for each, its training passes, then
    one print of the sum of their losses, from [0], over
    [len(trainloader)]. *)
Lemma epochs_from_segments (k : nat) :
  forall (m : M) (e0 : nat),
  exists segs : list (list event),
    List.length segs = k /\
    snd (epochs_from m e0 k) =
      flat_map (fun p => epoch_shape (fst p) (snd p)) (combine (seq e0 k) segs) /\
    Forall (fun p => Train.batches_of_epoch (fst p) (snd p) = loader (fst p) /\
                     (forall e', e' <> fst p -> Train.batches_of_epoch e' (snd p) = []) /\
                     List.length (Train.losses_of (snd p)) = List.length (loader (fst p)) /\
                     Train.prints (snd p) = [])
      (combine (seq e0 k) segs).
Proof.
  induction k as [|k IH]; intros m e0.
  - exists []; repeat split; constructor.
  - simpl. unfold Train.epoch.
    pose proof (inner_loop_spec e0 (loader e0) m float_of_int0) as Hin.
    destruct (inner_loop e0 m (loader e0) float_of_int0) as [[m1 r1] evs].
    destruct Hin as (H1 & H2 & H3 & _ & H6 & H5).
    destruct (IH m1 (S e0)) as (segs & Hlen & Hev & Hall).
    exists (evs :: segs); split; [simpl; now rewrite Hlen|]; split.
    + destruct (epochs_from m1 (S e0) k) as [m2 evs']; simpl in *.
      rewrite Hev; unfold Train.epoch_shape; simpl; now rewrite H5.
    + constructor; [simpl; auto | exact Hall].
Qed.

(** Epochs [e0], ..., [e0+k-1] train on the batches of their epoch, and
    make [k] prints. *)
Lemma epochs_from_batches (k : nat) :
  forall (m : M) (e0 e : nat),
    Train.batches_of_epoch e (snd (epochs_from m e0 k)) =
    if (e0 <=? e) && (e <? e0 + k) then loader e else [].
Proof.
  induction k as [|k IH]; intros m e0 e.
  - simpl; destruct (e0 <=? e) eqn:E1, (e <? e0 + 0) eqn:E2; simpl; auto.
    apply Nat.leb_le in E1; apply Nat.ltb_lt in E2; lia.
  - simpl; unfold Train.epoch.
    pose proof (inner_loop_spec e0 (loader e0) m float_of_int0) as Hin.
    destruct (inner_loop e0 m (loader e0) float_of_int0) as [[m1 r1] evs].
    destruct Hin as (H1 & H2 & _).
    specialize (IH m1 (S e0) e).
    destruct (epochs_from m1 (S e0) k) as [m2 evs']; cbn [snd] in *.
    rewrite !batches_of_epoch_app, IH.
    change (Train.batches_of_epoch e [Train.EvPrint (fdiv_int r1 loader_len)]) with
      (@nil (Imgs * Lbls)).
    rewrite app_nil_r.
    destruct (Nat.eq_dec e e0) as [->|Hne]; [rewrite H1 | rewrite (H2 e Hne)];
      nat_bool_cases; cbn [andb app]; rewrite ?app_nil_r; first [reflexivity | lia].
Qed.

Lemma epochs_from_prints (k : nat) :
  forall (m : M) (e0 : nat), List.length (Train.prints (snd (epochs_from m e0 k))) = k.
Proof.
  induction k as [|k IH]; intros m e0; [reflexivity|].
  simpl; unfold Train.epoch.
  pose proof (inner_loop_spec e0 (loader e0) m float_of_int0) as Hin.
  destruct (inner_loop e0 m (loader e0) float_of_int0) as [[m1 r1] evs].
  destruct Hin as (_ & _ & H3 & _).
  specialize (IH m1 (S e0)).
  destruct (epochs_from m1 (S e0) k) as [m2 evs']; simpl in *.
  rewrite !prints_app, !length_app, H3, IH; reflexivity.
Qed.

End TrainFacts.

(** ** Batches of the data loader *)

Lemma chunks_aux_concat {A} (k fuel : nat) (l : list A) :
  0 < k -> List.length l <= fuel -> List.concat (Loader.chunks_aux fuel k l) = l.
Proof.
  intros Hk; revert l; induction fuel as [|fuel IH]; intros l Hl.
  - destruct l; [reflexivity | simpl in Hl; lia].
  - destruct l as [|x l']; [reflexivity|].
    cbn [Loader.chunks_aux List.concat]; rewrite IH.
    + apply firstn_skipn.
    + rewrite length_skipn; cbn [List.length] in *; lia.
Qed.

Lemma chunks_aux_length {A} (k fuel : nat) (l : list A) :
  0 < k -> List.length l <= fuel ->
  List.length (Loader.chunks_aux fuel k l) = (List.length l + k - 1) / k.
Proof.
  intros Hk; revert l; induction fuel as [|fuel IH]; intros l Hl.
  - destruct l; [|simpl in Hl; lia]; simpl; symmetry; apply Nat.div_small; lia.
  - destruct l as [|x l'].
    + simpl; symmetry; apply Nat.div_small; lia.
    + remember (List.length (x :: l')) as n eqn:En.
      assert (Hn : 1 <= n) by (rewrite En; simpl; lia).
      cbn [Loader.chunks_aux].
      rewrite length_cons, IH by (rewrite length_skipn, <- En; lia).
      rewrite length_skipn, <- En.
      replace (n + k - 1) with ((n - 1) + 1 * k) by lia.
      rewrite Nat.div_add by lia.
      destruct (Nat.le_gt_cases n k) as [Hle|Hgt].
      * replace (n - k + k - 1) with (k - 1) by lia.
        rewrite (Nat.div_small (k - 1)), (Nat.div_small (n - 1)) by lia; reflexivity.
      * replace (n - k + k - 1) with (n - 1) by lia; lia.
Qed.

(** [len(trainloader)] is the number of batches the loader yields in every
    epoch, when the sampler draws an order of the whole dataset. *)
Lemma loader_len_is_number_of_batches (Img Lbl : Type)
    (sampler : nat -> list (Img * Lbl) -> list (Img * Lbl)) (dataset : list (Img * Lbl))
    (e : nat) :
  List.length (sampler e dataset) = List.length dataset ->
  List.length (Loader.epoch_batches Img Lbl sampler dataset Loader.batch_size e) =
  Loader.loader_len (List.length dataset) Loader.batch_size.
Proof.
  intros Hlen; unfold Loader.epoch_batches, Loader.batches, Loader.chunks, Loader.loader_len.
  rewrite length_map, chunks_aux_length, Hlen; [reflexivity | unfold Loader.batch_size; lia | lia].
Qed.

(** The images of one epoch's batches are the images of the sampled order. *)
Lemma epoch_batches_images (Img Lbl : Type)
    (sampler : nat -> list (Img * Lbl) -> list (Img * Lbl)) (dataset : list (Img * Lbl))
    (e : nat) :
  List.concat (map fst (Loader.epoch_batches Img Lbl sampler dataset Loader.batch_size e)) =
  map fst (sampler e dataset).
Proof.
  unfold Loader.epoch_batches, Loader.batches, Loader.chunks, Loader.collate.
  rewrite map_map; cbn [fst].
  rewrite <- concat_map, chunks_aux_concat; [reflexivity | unfold Loader.batch_size; lia | lia].
Qed.

Lemma combine_fst_snd {A B} (l : list (A * B)) : combine (map fst l) (map snd l) = l.
Proof. induction l as [|[a b] l IH]; simpl; [reflexivity | now rewrite IH]. Qed.

(** The batches of one epoch, uncollated, are the sampled order cut in
    pieces. *)
Lemma epoch_batches_samples (Img Lbl : Type)
    (sampler : nat -> list (Img * Lbl) -> list (Img * Lbl)) (dataset : list (Img * Lbl))
    (e : nat) :
  List.concat (map (fun b => combine (fst b) (snd b))
                 (Loader.epoch_batches Img Lbl sampler dataset Loader.batch_size e)) =
  sampler e dataset.
Proof.
  unfold Loader.epoch_batches, Loader.batches, Loader.chunks, Loader.collate.
  rewrite map_map; cbn [fst snd].
  rewrite (map_ext _ (fun x => x) (fun x => combine_fst_snd x)), map_id.
  apply chunks_aux_concat; [unfold Loader.batch_size; lia | lia].
Qed.

Section NotebookTraining.

Local Open Scope nat_scope.
Local Open Scope list_scope.

Variables (Img Lbl M Out Loss Float : Type).
Variable flatten : list Img -> list Img.
Variable zero_grad : M -> M.
Variable forward : M -> list Img -> Out.
Variable criterion : Out -> list Lbl -> Loss.
Variable backward : M -> Loss -> M.
Variable step : M -> M.
Variable item : Loss -> Float.
Variable float_of_int0 : Float.
Variable fadd : Float -> Float -> Float.
Variable fdiv_int : Float -> nat -> Float.
Variable sampler : nat -> list (Img * Lbl) -> list (Img * Lbl).
Variable dataset : list (Img * Lbl).

Local Notation loader := (Loader.epoch_batches Img Lbl sampler dataset Loader.batch_size).
Local Notation run := (Train.notebook_training Img Lbl M Out Loss Float flatten zero_grad
                         forward criterion backward step item float_of_int0 fadd fdiv_int
                         sampler dataset).

(** C3: the outer loop runs [epochs = 5] times; iteration [e] trains on
    every batch the loader yields in that epoch, in order, and these batches
    hold every sample of the dataset exactly once (in the order drawn by the
    sampler, a permutation of the dataset); no batch is trained on outside
    the five epochs, there is one print per epoch, and the recorded run
    printed five lines. *)
Theorem training_runs_five_full_epochs
    (Hperm : forall e, Permutation (sampler e dataset) dataset) (m : M) :
  List.length (Train.prints (run m)) = Train.epochs /\
  Train.epochs = 5 /\
  In (SAssignInt "epochs" 5) src_16 /\
  (forall e, e < Train.epochs ->
     Train.batches_of_epoch e (run m) = loader e /\
     Permutation (List.concat (map (fun b => combine (fst b) (snd b))
                                   (Train.batches_of_epoch e (run m)))) dataset) /\
  (forall e, Train.epochs <= e -> Train.batches_of_epoch e (run m) = []) /\
  option_map (fun c => List.length (Recorded.stdout_lines c)) (Recorded.cell_with_count 16)
    = Some 5.
Proof.
  unfold Train.notebook_training, Train.train.
  split; [apply epochs_from_prints|].
  split; [reflexivity|].
  split; [simpl; tauto|].
  split; [|split].
  - intros e He; rewrite epochs_from_batches.
    replace ((0 <=? e) && (e <? 0 + Train.epochs)) with true
      by (symmetry; apply andb_true_intro; split; [apply Nat.leb_le | apply Nat.ltb_lt]; lia).
    split; [reflexivity|].
    rewrite epoch_batches_samples; apply Hperm.
  - intros e He; rewrite epochs_from_batches.
    replace (e <? 0 + Train.epochs) with false
      by (symmetry; apply Nat.ltb_ge; lia).
    now rewrite andb_false_r.
  - vm_compute; reflexivity.
Qed.

(** C8: the training cell prints, for each epoch [e] in turn, once, after
    the training passes of that epoch (the [else] clause of the inner
    loop), the sum of [loss.item()] over the batches of that epoch, added up
    from [running_loss = 0], divided by the number of batches the loader
    yields. *)
Theorem printed_loss_is_mean_over_batches
    (Hlen : forall e, List.length (sampler e dataset) = List.length dataset) (m : M) :
  nth_error src_16 4 =
    Some (SFor (TName "e") (IRange "epochs")
            [SAssignInt "running_loss" 0;
             SFor (TTuple ["images"; "labels"]) (IIter "trainloader") train_body train_else]
            []) /\
  exists segs : list (list (Train.event (list Img) (list Lbl) Float)),
    List.length segs = Train.epochs /\
    run m =
      flat_map (fun p =>
                  snd p ++
                  [Train.EvPrint
                     (fdiv_int (fold_left fadd (Train.losses_of (snd p)) float_of_int0)
                               (List.length (loader (fst p))))])
               (combine (seq 0 Train.epochs) segs) /\
    Forall (fun p => Train.batches_of_epoch (fst p) (snd p) = loader (fst p) /\
                     List.length (Train.losses_of (snd p)) = List.length (loader (fst p)) /\
                     Train.prints (snd p) = [])
      (combine (seq 0 Train.epochs) segs).
Proof.
  split; [reflexivity|].
  unfold Train.notebook_training, Train.train.
  destruct (epochs_from_segments (list Img) (list Lbl) M Out Loss Float flatten zero_grad
              forward criterion backward step item float_of_int0 fadd fdiv_int loader
              (Loader.loader_len (List.length dataset) Loader.batch_size)
              Train.epochs m 0) as (segs & Hl & Hev & Hall).
  exists segs; split; [exact Hl|]; split.
  - rewrite Hev; apply flat_map_ext; intros [e seg]; unfold Train.epoch_shape; cbn [fst snd].
    now rewrite loader_len_is_number_of_batches by apply Hlen.
  - eapply Forall_impl; [|exact Hall]; cbn; tauto.
Qed.

End NotebookTraining.

(** ** Instances of the theorems above *)

Lemma cells_propagate_library_exceptions_witness :
  In (mkcell (Some 16) src_16 out_16) notebook /\
  replays unit string
    (fun c s => if String.eqb (fn c) "next" then inr "RuntimeError"%string else inl s)
    tt
    (exec_cell unit string
       (fun c s => if String.eqb (fn c) "next" then inr "RuntimeError"%string else inl s)
       (fun _ _ => 2%nat) (fun _ => true) "AssertionError"%string 0%nat src_16 tt) /\
  snd (exec_cell unit string
         (fun c s => if String.eqb (fn c) "next" then inr "RuntimeError"%string else inl s)
         (fun _ _ => 2%nat) (fun _ => true) "AssertionError"%string 0%nat src_16 tt) =
    Err "RuntimeError"%string tt.
Proof.
  assert (Hc : In (mkcell (Some 16) src_16 out_16) notebook)
    by (unfold notebook; do 14 right; left; reflexivity).
  split; [exact Hc|]; split.
  - exact (proj2 (cells_propagate_library_exceptions unit string
                    (fun c s => if String.eqb (fn c) "next" then inr "RuntimeError"%string
                                else inl s)
                    (fun _ _ => 2%nat) (fun _ => true) "AssertionError"%string 0%nat _ tt Hc)).
  - vm_compute; reflexivity.
Defined.

Lemma loader_yields_image_label_pairs_witness :
  In ([tt], [tt]) (Loader.epoch_batches unit unit (fun _ l => l) [(tt, tt)]
                     Loader.batch_size 0) /\
  exists samples : list (unit * unit),
    ([tt], [tt]) = (map fst samples, map snd samples) /\
    (0 < List.length samples <= Loader.batch_size)%nat.
Proof.
  assert (Hb : In ([tt], [tt]) (Loader.epoch_batches unit unit (fun _ l => l) [(tt, tt)]
                                  Loader.batch_size 0))
    by (simpl; left; reflexivity).
  split; [exact Hb|].
  exact (proj2 (proj2 loader_yields_image_label_pairs) unit unit (fun _ l => l)
           [(tt, tt)] 0%nat ([tt], [tt]) Hb).
Defined.

Lemma training_runs_five_full_epochs_witness :
  (forall e, Permutation ((fun (_ : nat) (l : list (unit * unit)) => l) e [(tt, tt)])
                         [(tt, tt)]) /\
  List.length (Train.prints
    (Train.notebook_training unit unit unit unit unit nat (fun x => x) (fun m => m)
       (fun _ _ => tt) (fun _ _ => tt) (fun _ _ => tt) (fun m => m) (fun _ => 1%nat)
       0%nat Nat.add Nat.div (fun _ l => l) [(tt, tt)] tt)) = Train.epochs.
Proof.
  assert (Hp : forall e, Permutation ((fun (_ : nat) (l : list (unit * unit)) => l) e
                                        [(tt, tt)]) [(tt, tt)])
    by (intros e; simpl; apply Permutation_refl).
  split; [exact Hp|].
  exact (proj1 (training_runs_five_full_epochs unit unit unit unit unit nat (fun x => x)
                  (fun m => m) (fun _ _ => tt) (fun _ _ => tt) (fun _ _ => tt) (fun m => m)
                  (fun _ => 1%nat) 0%nat Nat.add Nat.div (fun _ l => l) [(tt, tt)] Hp tt)).
Defined.

Lemma printed_loss_is_mean_over_batches_witness :
  (forall e, List.length ((fun (_ : nat) (l : list (unit * unit)) => l) e [(tt, tt)]) =
             List.length [(tt, tt)]) /\
  nth_error src_16 4 =
    Some (SFor (TName "e") (IRange "epochs")
            [SAssignInt "running_loss" 0;
             SFor (TTuple ["images"; "labels"]) (IIter "trainloader") train_body train_else]
            []).
Proof.
  assert (Hl : forall e, List.length ((fun (_ : nat) (l : list (unit * unit)) => l) e
                                        [(tt, tt)]) = List.length [(tt, tt)])
    by (intros e; reflexivity).
  split; [exact Hl|].
  exact (proj1 (printed_loss_is_mean_over_batches unit unit unit unit unit nat (fun x => x)
                  (fun m => m) (fun _ _ => tt) (fun _ _ => tt) (fun _ _ => tt) (fun m => m)
                  (fun _ => 1%nat) 0%nat Nat.add Nat.div (fun _ l => l) [(tt, tt)] Hl tt)).
Defined.

(** ** Real arithmetic of the optimizer and of the network *)

Section RealFacts.

Import Reals Lra.
Local Open Scope R_scope.

Lemma nth_error_zip_with {A B C} (f : A -> B -> C) (l1 : list A) :
  forall (l2 : list B) (i : nat) (x : A) (y : B),
    nth_error l1 i = Some x -> nth_error l2 i = Some y ->
    nth_error (SGD.zip_with f l1 l2) i = Some (f x y).
Proof.
  induction l1 as [|a l1 IH]; intros l2 i x y H1 H2; [destruct i; discriminate|].
  destruct l2 as [|b l2]; [destruct i; discriminate|].
  destruct i as [|i]; simpl in *.
  - now injection H1 as <-; injection H2 as <-.
  - now apply IH.
Qed.

Lemma length_zip_with {A B C} (f : A -> B -> C) (l1 : list A) :
  forall (l2 : list B), List.length (SGD.zip_with f l1 l2) = Nat.min (List.length l1) (List.length l2).
Proof.
  induction l1 as [|a l1 IH]; intros [|b l2]; simpl; auto.
Qed.

(** C9: with [lr=0.01] and the defaults of [optim.SGD] (no momentum),
    [optimizer.step()] sets each weight entry [w] with gradient [g] to
    [w - 0.01 * g], so an entry of zero gradient keeps its value.  In the
    recorded run, the printed gradient of the first layer has two all-zero
    rows (rows 1 and 2), and these rows are printed identically before and
    after the step. *)
Theorem sgd_step_leaves_zero_gradient_entries
    (W G : SGD.matrix) (i j : nat) (w g : R)
    (Hw : SGD.mget W i j = Some w) (Hg : SGD.mget G i j = Some g) :
  In ("optim.SGD" @@ ["model.parameters()"; "lr=0.01"]) (flat_map stmt_calls src_13) /\
  In (SExpr None ["optimizer.step" @@ []]) src_15 /\
  SGD.lr_demo = / 100 /\
  SGD.mget (SGD.sgd_step SGD.lr_demo W G) i j = Some (w - SGD.lr_demo * g) /\
  (g = 0 -> SGD.mget (SGD.sgd_step SGD.lr_demo W G) i j = Some w) /\
  Printout.indices_where Printout.zero_row Printout.gradient 0 = [1; 2]%nat /\
  Forall (fun k => nth k Printout.weight_before [] = nth k Printout.weight_after [])
    (Printout.indices_where Printout.zero_row Printout.gradient 0).
Proof.
  assert (Hupd : SGD.mget (SGD.sgd_step SGD.lr_demo W G) i j = Some (w - SGD.lr_demo * g)).
  { unfold SGD.mget, SGD.sgd_step in *.
    destruct (nth_error W i) as [rw|] eqn:EW; [|discriminate].
    destruct (nth_error G i) as [rg|] eqn:EG; [|discriminate].
    rewrite (nth_error_zip_with _ W G i rw rg EW EG).
    rewrite (nth_error_zip_with _ rw rg j w g Hw Hg).
    unfold SGD.add_alpha; f_equal; ring. }
  split; [simpl; tauto|].
  split; [simpl; tauto|].
  split; [reflexivity|].
  split; [exact Hupd|].
  split; [intros ->; rewrite Hupd; f_equal; ring|].
  split; vm_compute; [reflexivity|].
  repeat constructor.
Qed.

Lemma sum_exp_nonneg (v : list R) : 0 <= Net.sum (map exp v).
Proof.
  induction v as [|a v IH]; simpl; [lra|].
  pose proof (exp_pos a); lra.
Qed.

Lemma sum_exp_pos (v : list R) : v <> [] -> 0 < Net.sum (map exp v).
Proof.
  destruct v as [|a v]; [congruence|]; intros _; simpl.
  pose proof (exp_pos a); pose proof (sum_exp_nonneg v); lra.
Qed.

Lemma sum_map_scale (v : list R) (c : R) :
  Net.sum (map (fun a => exp a * c) v) = Net.sum (map exp v) * c.
Proof. induction v as [|a v IH]; simpl; [ring | rewrite IH; ring]. Qed.

Lemma exp_log_softmax (v : list R) :
  v <> [] ->
  map exp (Net.log_softmax v) = map (fun a => exp a * / Net.sum (map exp v)) v.
Proof.
  intros Hv; unfold Net.log_softmax; rewrite map_map; apply map_ext; intros a.
  unfold Rminus; rewrite exp_plus, exp_Ropp, exp_ln by (now apply sum_exp_pos).
  reflexivity.
Qed.

Lemma log_softmax_distribution (v : list R) :
  v <> [] ->
  List.length (Net.log_softmax v) = List.length v /\
  Forall (fun p => 0 < p) (map exp (Net.log_softmax v)) /\
  Net.sum (map exp (Net.log_softmax v)) = 1.
Proof.
  intros Hv; split; [unfold Net.log_softmax; apply length_map|].
  split.
  - apply Forall_forall; intros p Hp; apply in_map_iff in Hp as (a & <- & _); apply exp_pos.
  - rewrite exp_log_softmax, sum_map_scale by exact Hv.
    apply Rinv_r; pose proof (sum_exp_pos v Hv); lra.
Qed.

(** A network of the trained architecture ends with [nn.Linear(64, 10)]
    and [nn.LogSoftmax(dim=1)]. *)
Lemma shaped_trained_arch (net : list Net.layer) :
  Net.shaped Net.trained_arch net = true ->
  exists W b x_of, List.length W = 10%nat /\ List.length b = 10%nat /\
    forall x, Net.forward net x =
              Net.log_softmax (SGD.zip_with Rplus (map (fun w => Net.dot w (x_of x)) W) b).
Proof.
  intros H.
  destruct net as [|[W1 b1| |] [|[| |] [|[W3 b3| |] [|[| |] [|[W5 b5| |]
                   [|[| |] [|l7 net]]]]]]];
    cbn [Net.shaped Net.trained_arch Net.layer_shaped] in H;
    rewrite ?andb_false_r, ?andb_false_l in H; try discriminate.
  rewrite !andb_true_r, !andb_true_iff in H.
  repeat match goal with Hc : _ /\ _ |- _ => destruct Hc end.
  repeat match goal with Hc : Nat.eqb _ _ = true |- _ => apply Nat.eqb_eq in Hc end.
  exists W5, b5,
    (fun x => Net.apply_layer Net.ReLU
                (Net.apply_layer (Net.Linear W3 b3)
                   (Net.apply_layer Net.ReLU (Net.apply_layer (Net.Linear W1 b1) x)))).
  split; [assumption|]; split; [assumption|].
  intros x; reflexivity.
Qed.

(** C10: the model of the training cell, [nn.Sequential] of the layers
    [Linear(784, 128), ReLU, Linear(128, 64), ReLU, Linear(64, 10),
    LogSoftmax(dim=1)], whatever its parameters (of the shapes these layers
    create), maps every input row to a row of 10 values whose [torch.exp]
    are positive and sum to 1: the [ps] the prediction cell passes to
    [helper.view_classify] is a probability distribution over 10 classes. *)
Theorem exp_of_model_output_is_distribution
    (net : list Net.layer) (Hnet : Net.shaped Net.trained_arch net = true)
    (images : list (list R)) (row : list R) (Hrow : In row (Net.forward_batch net images)) :
  nth_error src_16 0 =
    Some (SExpr (Some (TName "model")) (seq_model (map Net.render Net.trained_arch))) /\
  In (SExpr (Some (TName "ps")) ["torch.exp" @@ ["logps"]]) src_18 /\
  List.length row = 10%nat /\
  Forall (fun p => 0 < p) (map exp row) /\
  Net.sum (map exp row) = 1.
Proof.
  split; [vm_compute; reflexivity|].
  split; [simpl; tauto|].
  destruct (shaped_trained_arch net Hnet) as (W & b & x_of & HW & Hb & Hf).
  unfold Net.forward_batch in Hrow; apply in_map_iff in Hrow as (x & <- & _).
  rewrite Hf.
  set (v := SGD.zip_with Rplus (map (fun w => Net.dot w (x_of x)) W) b).
  assert (Hv : List.length v = 10%nat)
    by (unfold v; rewrite length_zip_with, length_map, HW, Hb; reflexivity).
  assert (Hne : v <> []) by (intros E; rewrite E in Hv; discriminate).
  destruct (log_softmax_distribution v Hne) as (Hl & Hp & Hs).
  split; [now rewrite Hl|]; split; assumption.
Qed.

Lemma sgd_step_leaves_zero_gradient_entries_witness :
  SGD.mget [[1]] 0 0 = Some 1 /\ SGD.mget [[0]] 0 0 = Some 0 /\
  SGD.mget (SGD.sgd_step SGD.lr_demo [[1]] [[0]]) 0 0 = Some 1.
Proof.
  assert (Hw : SGD.mget [[1]] 0 0 = Some 1) by reflexivity.
  assert (Hg : SGD.mget [[0]] 0 0 = Some 0) by reflexivity.
  split; [exact Hw|]; split; [exact Hg|].
  exact (proj1 (proj2 (proj2 (proj2 (proj2
           (sgd_step_leaves_zero_gradient_entries [[1]] [[0]] 0 0 1 0 Hw Hg))))) eq_refl).
Defined.

Lemma exp_of_model_output_is_distribution_witness :
  Net.shaped Net.trained_arch
    [Net.Linear (repeat (repeat 0 784) 128) (repeat 0 128); Net.ReLU;
     Net.Linear (repeat (repeat 0 128) 64) (repeat 0 64); Net.ReLU;
     Net.Linear (repeat (repeat 0 64) 10) (repeat 0 10); Net.LogSoftmax] = true /\
  Net.sum (map exp (Net.forward
    [Net.Linear (repeat (repeat 0 784) 128) (repeat 0 128); Net.ReLU;
     Net.Linear (repeat (repeat 0 128) 64) (repeat 0 64); Net.ReLU;
     Net.Linear (repeat (repeat 0 64) 10) (repeat 0 10); Net.LogSoftmax]
    (repeat 0 784))) = 1.
Proof.
  assert (Hs : Net.shaped Net.trained_arch
    [Net.Linear (repeat (repeat 0 784) 128) (repeat 0 128); Net.ReLU;
     Net.Linear (repeat (repeat 0 128) 64) (repeat 0 64); Net.ReLU;
     Net.Linear (repeat (repeat 0 64) 10) (repeat 0 10); Net.LogSoftmax] = true)
    by (vm_compute; reflexivity).
  split; [exact Hs|].
  exact (proj2 (proj2 (proj2 (proj2
           (exp_of_model_output_is_distribution _ Hs [repeat 0 784] _
              (or_introl eq_refl)))))).
Defined.

End RealFacts.

End Proofs.

(** * Further properties of the notebook's code *)

Module Extras.

Import Notebook.

(** ** Autograd of the demonstration *)

Section AutogradFacts.

Import Reals Lra.
Local Open Scope R_scope.

Lemma derivable_pt_lim_pointwise (f g : R -> R) (x l : R) :
  (forall t, f t = g t) -> derivable_pt_lim g x l -> derivable_pt_lim f x l.
Proof.
  intros Hfg H eps He; destruct (H eps He) as [d Hd]; exists d.
  intros h Hh Hhd; rewrite !Hfg; now apply Hd.
Qed.

Lemma sum_set_nth (f : R -> R) (r : list R) :
  forall (j : nat) (a t : R), nth_error r j = Some a ->
  Net.sum (map f (Autograd.set_nth r j t)) = Net.sum (map f r) - f a + f t.
Proof.
  induction r as [|b r IH]; intros j a t H; [destruct j; discriminate|].
  destruct j as [|j]; simpl in *.
  - injection H as ->; ring.
  - rewrite (IH j a t H); ring.
Qed.

Lemma length_set_nth {A} (l : list A) :
  forall i a, List.length (Autograd.set_nth l i a) = List.length l.
Proof. induction l as [|b l IH]; intros [|i] a; simpl; auto. Qed.

Lemma set_entry_sum (f : R -> R) (x : Autograd.matrix) :
  forall (i j : nat) (a t : R), SGD.mget x i j = Some a ->
  Autograd.sum_all (map (map f) (Autograd.set_entry x i j t)) =
  Autograd.sum_all (map (map f) x) - f a + f t /\
  Autograd.numel (Autograd.set_entry x i j t) = Autograd.numel x.
Proof.
  unfold SGD.mget, Autograd.set_entry.
  induction x as [|r x IH]; intros i j a t H; [destruct i; discriminate|].
  destruct i as [|i]; cbn [nth_error] in H |- *.
  - cbn [Autograd.set_nth map]; unfold Autograd.sum_all, Autograd.numel; cbn [fold_right].
    split; [rewrite (sum_set_nth f r j a t H); ring|].
    now rewrite length_set_nth.
  - destruct (nth_error x i) as [r'|] eqn:E; [|discriminate].
    specialize (IH i j a t); rewrite E in IH; destruct (IH H) as [H1 H2].
    cbn [Autograd.set_nth map]; unfold Autograd.sum_all, Autograd.numel in *;
      cbn [fold_right].
    split; [rewrite H1; ring | now rewrite H2].
Qed.

Lemma numel_map (f : R -> R) (x : Autograd.matrix) :
  Autograd.numel (map (map f) x) = Autograd.numel x.
Proof. induction x as [|r x IH]; simpl; [reflexivity | now rewrite length_map, IH]. Qed.

(** X1: [z = (x**2).mean()] has, in every entry [x[i][j] = a], the
    partial derivative [2 a / numel(x)], which [z.backward()] stores in
    [x.grad]; for the 2x2 tensor of the demonstration this is [a / 2], the
    entry of [x / 2], and the recorded run printed [x.grad] and [x / 2] as
    the same tensor. *)
Theorem mean_square_gradient (x : Autograd.matrix) (i j : nat) (a : R)
    (Ha : SGD.mget x i j = Some a) :
  derivable_pt_lim (fun t => Autograd.z_of (Autograd.set_entry x i j t)) a
    (2 * a / INR (Autograd.numel x)) /\
  (Autograd.numel x = 4%nat -> 2 * a / INR (Autograd.numel x) = a / 2) /\
  src_10 = [SExpr None ["z.backward" @@ []];
            SExpr None ["print" @@ ["x.grad"]];
            SExpr None ["/" @@ ["x"; "2"]; "print" @@ ["x/2"]]]%string /\
  List.length (Printout.cell_tensors 10) = 2%nat /\
  nth 0 (Printout.cell_tensors 10) [] = nth 1 (Printout.cell_tensors 10) [].
Proof.
  split; [|split; [|split; [reflexivity | split; vm_compute; reflexivity]]].
  - set (N := INR (Autograd.numel x)).
    set (C := Autograd.sum_all (Autograd.pow2 x) - a ^ 2).
    apply (derivable_pt_lim_pointwise _ (fun t => (C + t ^ 2) * / N)).
    + intros t; unfold Autograd.z_of, Autograd.mean, Autograd.pow2.
      destruct (set_entry_sum (fun v => v ^ 2) x i j a t Ha) as [H1 H2].
      rewrite numel_map, H1, H2; unfold C, N, Autograd.pow2, Rdiv; ring.
    + replace (2 * a / N) with ((0 + INR 2 * a ^ Nat.pred 2) * / N + (C + a ^ 2) * 0)
        by (simpl; unfold Rdiv; ring).
      apply (derivable_pt_lim_mult (fun t => C + t ^ 2) (fun _ => / N)).
      * apply (derivable_pt_lim_plus (fun _ => C) (fun t => t ^ 2));
          [apply derivable_pt_lim_const | apply derivable_pt_lim_pow].
      * apply derivable_pt_lim_const.
  - intros H4; rewrite H4; simpl; field.
Qed.

End AutogradFacts.

(** ** The losses *)

Section LossFacts.

Import Reals Lra.
Local Open Scope R_scope.

Lemma batch_sum_ce_nll (rows : list (list R)) :
  forall labels : list nat,
  Loss.batch_sum Loss.ce_row rows labels =
  Loss.batch_sum Loss.nll_row (map Net.log_softmax rows) labels.
Proof.
  induction rows as [|r rows IH]; intros [|y labels]; try reflexivity.
  cbn [Loss.batch_sum map]; rewrite IH.
  replace (Loss.ce_row r y) with (Loss.nll_row (Net.log_softmax r) y); [reflexivity|].
  unfold Loss.ce_row, Loss.nll_row, Net.log_softmax; rewrite nth_error_map.
  destruct (nth_error r y); simpl; [f_equal; ring | reflexivity].
Qed.

Lemma forward_app_log_softmax (net : list Net.layer) (x : list R) :
  Net.forward (net ++ [Net.LogSoftmax]) x = Net.log_softmax (Net.forward net x).
Proof. unfold Net.forward; now rewrite fold_left_app. Qed.

(** X2: cell 2 builds the network without [nn.LogSoftmax(dim=1)] and uses
    [nn.CrossEntropyLoss()] on its logits; cells 3 and 11 append
    [nn.LogSoftmax(dim=1)] and use [nn.NLLLoss()].  For the same parameters,
    every batch and every labels, both compute the same loss (and raise on
    the same inputs). *)
Theorem cross_entropy_is_nll_of_log_softmax
    (net : list Net.layer) (images : list (list R)) (labels : list nat) :
  layers_logps = (layers_logits ++ ["nn.LogSoftmax" @@ ["dim=1"]%string])%list /\
  In (SExpr (Some (TName "criterion")) ["nn.CrossEntropyLoss" @@ []])%string src_2 /\
  In (SExpr (Some (TName "criterion")) ["nn.NLLLoss" @@ []])%string src_3 /\
  Loss.cross_entropy (Net.forward_batch net images) labels =
  Loss.nll (Net.forward_batch (net ++ [Net.LogSoftmax]) images) labels.
Proof.
  split; [reflexivity|]; split; [simpl; tauto|]; split; [simpl; tauto|].
  unfold Loss.cross_entropy, Loss.nll, Loss.batch_mean, Net.forward_batch.
  rewrite batch_sum_ce_nll, !length_map, map_map.
  rewrite (map_ext _ _ (forward_app_log_softmax net)); reflexivity.
Qed.

Lemma exp_le_sum_exp (v : list R) (a : R) : In a v -> exp a <= Net.sum (map exp v).
Proof.
  induction v as [|b v IH]; intros H; [destruct H|].
  simpl; destruct H as [->|H].
  - pose proof (Proofs.sum_exp_nonneg v); lra.
  - pose proof (IH H); pose proof (exp_pos b); lra.
Qed.

Lemma log_softmax_nonpos (v : list R) : Forall (fun p => p <= 0) (Net.log_softmax v).
Proof.
  apply Forall_forall; intros p Hp; unfold Net.log_softmax in Hp.
  apply in_map_iff in Hp as (a & <- & Ha).
  assert (Hs : 0 < Net.sum (map exp v))
    by (apply Proofs.sum_exp_pos; intros E; rewrite E in Ha; destruct Ha).
  assert (a <= ln (Net.sum (map exp v))).
  { rewrite <- (ln_exp a) at 1.
    destruct (Rle_lt_or_eq_dec _ _ (exp_le_sum_exp v a Ha)) as [Hlt|Heq].
    - left; apply ln_increasing; [apply exp_pos | exact Hlt].
    - right; now rewrite Heq. }
  lra.
Qed.

Lemma batch_sum_nll_nonneg (rows : list (list R)) :
  forall (labels : list nat) (s : R),
  Forall (Forall (fun p => p <= 0)) rows ->
  Loss.batch_sum Loss.nll_row rows labels = Some s -> 0 <= s.
Proof.
  induction rows as [|r rows IH]; intros [|y labels] s Hr Hs; try discriminate.
  - injection Hs as <-; lra.
  - cbn [Loss.batch_sum] in Hs; inversion Hr as [|? ? Hr1 Hr2]; subst.
    destruct (Loss.nll_row r y) as [v|] eqn:E; [|discriminate].
    destruct (Loss.batch_sum Loss.nll_row rows labels) as [s'|] eqn:E'; [|discriminate].
    injection Hs as <-.
    pose proof (IH labels s' Hr2 E').
    unfold Loss.nll_row in E.
    destruct (nth_error r y) as [w|] eqn:Ew; [|discriminate].
    injection E as <-.
    assert (w <= 0) by (apply (proj1 (Forall_forall _ _) Hr1); now apply nth_error_In in Ew).
    lra.
Qed.

Lemma forward_batch_log_softmax (net : list Net.layer) (images : list (list R)) :
  Net.shaped Net.trained_arch net = true ->
  Forall (fun r => Forall (fun p => p <= 0) r /\ List.length r = 10%nat)
    (Net.forward_batch net images).
Proof.
  intros Hnet; destruct (Proofs.shaped_trained_arch net Hnet) as (W & b & x_of & HW & Hb & Hf).
  apply Forall_forall; intros r Hr; unfold Net.forward_batch in Hr.
  apply in_map_iff in Hr as (x & <- & _); rewrite Hf.
  split; [apply log_softmax_nonpos|].
  unfold Net.log_softmax; rewrite length_map, Proofs.length_zip_with, length_map, HW, Hb.
  reflexivity.
Qed.

(** X3: the loss of the trained model, [nn.NLLLoss()] on the output of
    [nn.LogSoftmax(dim=1)], is never negative: every log-probability is at
    most 0. *)
Theorem nll_of_model_is_nonneg
    (net : list Net.layer) (Hnet : Net.shaped Net.trained_arch net = true)
    (images : list (list R)) (labels : list nat) (l : R)
    (Hne : images <> []) (Hl : Loss.nll (Net.forward_batch net images) labels = Some l) :
  0 <= l.
Proof.
  unfold Loss.nll, Loss.batch_mean in Hl.
  destruct (Loss.batch_sum Loss.nll_row (Net.forward_batch net images) labels) as [s|] eqn:E;
    [|discriminate].
  injection Hl as <-.
  assert (Hs : 0 <= s).
  { apply (batch_sum_nll_nonneg (Net.forward_batch net images) labels s); [|exact E].
    eapply Forall_impl; [|exact (forward_batch_log_softmax net images Hnet)]; cbv beta; tauto. }
  unfold Rdiv; apply Rmult_le_pos; [exact Hs|].
  apply Rlt_le, Rinv_0_lt_compat, lt_0_INR.
  unfold Net.forward_batch; rewrite length_map; destruct images; [congruence | simpl; lia].
Qed.

Lemma batch_sum_nll_defined (rows : list (list R)) :
  forall labels : list nat,
  Forall (fun r => List.length r = 10%nat) rows ->
  List.length rows = List.length labels -> Forall (fun y => (y < 10)%nat) labels ->
  exists s, Loss.batch_sum Loss.nll_row rows labels = Some s.
Proof.
  induction rows as [|r rows IH]; intros [|y labels] Hr Hlen Hl; try discriminate;
    [now exists 0|].
  inversion Hr as [|? ? Hr1 Hr2]; inversion Hl as [|? ? Hl1 Hl2]; subst.
  destruct (IH labels Hr2 ltac:(simpl in Hlen; lia) Hl2) as [s Hs].
  destruct (nth_error r y) as [v|] eqn:E.
  - exists (- v + s); cbn [Loss.batch_sum]; rewrite Hs; unfold Loss.nll_row; now rewrite E.
  - apply nth_error_None in E; lia.
Qed.

Lemma sum_repeat (a : R) (n : nat) : Net.sum (repeat a n) = INR n * a.
Proof. induction n as [|n IH]; [simpl; ring | rewrite S_INR; simpl; rewrite IH; ring]. Qed.

Lemma batch_sum_uniform (cs : list R) :
  forall labels : list nat,
  List.length labels = List.length cs -> Forall (fun y => (y < 10)%nat) labels ->
  Loss.batch_sum Loss.ce_row (map (fun c => repeat c 10) cs) labels =
  Some (INR (List.length cs) * ln 10).
Proof.
  induction cs as [|c cs IH]; intros [|y labels] Hlen Hl; try discriminate.
  - simpl; f_equal; ring.
  - inversion Hl as [|? ? Hy Hl']; subst.
    cbn [map Loss.batch_sum]; rewrite IH by (simpl in Hlen; lia || assumption).
    unfold Loss.ce_row; rewrite nth_error_repeat by exact Hy; cbn [option_map].
    rewrite map_repeat, sum_repeat, ln_mult, ln_exp by (simpl; lra || apply exp_pos).
    replace (INR 10) with 10 by (simpl; ring).
    rewrite length_cons, S_INR; f_equal; ring.
Qed.

(** X5: when the network's 10 outputs are all equal on every row of a
    batch (no class preferred), [nn.CrossEntropyLoss()] is [log 10]
    (about 2.3026), whatever the labels of the 10 classes. *)
Theorem uniform_logits_loss (cs : list R) (labels : list nat)
    (Hne : cs <> []) (Hlen : List.length labels = List.length cs)
    (Hl : Forall (fun y => (y < 10)%nat) labels) :
  Loss.cross_entropy (map (fun c => repeat c 10) cs) labels = Some (ln 10).
Proof.
  unfold Loss.cross_entropy, Loss.batch_mean.
  rewrite batch_sum_uniform by assumption; cbn [option_map]; rewrite length_map.
  f_equal; field; apply not_0_INR; destruct cs; [congruence | simpl; lia].
Qed.

End LossFacts.

(** ** The printed training losses *)

Section TrainNonneg.

Import Reals Lra.
Local Open Scope R_scope.

Variables (Imgs Lbls M Out Loss : Type).
Variable flatten : Imgs -> Imgs.
Variable zero_grad : M -> M.
Variable forward : M -> Imgs -> Out.
Variable criterion : Out -> Lbls -> Loss.
Variable backward : M -> Loss -> M.
Variable step : M -> M.
Variable item : Loss -> R.
Variable loader : nat -> list (Imgs * Lbls).
Variable loader_len : nat.

Local Notation inner_loop :=
  (Train.inner_loop Imgs Lbls M Out Loss R flatten zero_grad forward criterion
     backward step item Rplus).
Local Notation epochs_from :=
  (Train.epochs_from Imgs Lbls M Out Loss R flatten zero_grad forward criterion
     backward step item 0 Rplus (fun r n => r / INR n) loader loader_len).

Lemma inner_loop_nonneg (e : nat) (bs : list (Imgs * Lbls)) :
  (forall l, 0 <= item l) ->
  forall (m : M) (r : R), 0 <= r ->
  let '(_, r', evs) := inner_loop e m bs r in 0 <= r' /\ Train.prints evs = [].
Proof.
  intros Hitem; induction bs as [|[im lb] bs IH]; intros m r Hr; [simpl; auto|].
  cbn [Train.inner_loop Train.train_pass].
  specialize (IH (step (backward (zero_grad m) (criterion (forward (zero_grad m)
                 (flatten im)) lb))) (r + item (criterion (forward (zero_grad m)
                 (flatten im)) lb))).
  destruct (inner_loop e _ bs _) as [[m2 r2] evs].
  destruct IH as [H1 H2]; [pose proof (Hitem (criterion (forward (zero_grad m)
                 (flatten im)) lb)); lra|].
  split; [exact H1|]; exact H2.
Qed.

Lemma epochs_from_nonneg (k : nat) :
  (forall l, 0 <= item l) -> (0 < loader_len)%nat ->
  forall (m : M) (e0 : nat),
  Forall (fun v => 0 <= v) (Train.prints (snd (epochs_from m e0 k))).
Proof.
  intros Hitem Hlen; induction k as [|k IH]; intros m e0; [constructor|].
  cbn [Train.epochs_from]; unfold Train.epoch.
  pose proof (inner_loop_nonneg e0 (loader e0) Hitem m 0 (Rle_refl 0)) as Hin.
  destruct (inner_loop e0 m (loader e0) 0) as [[m1 r1] evs].
  destruct Hin as [Hr1 Hp].
  specialize (IH m1 (S e0)).
  destruct (epochs_from m1 (S e0) k) as [m2 evs']; cbn [snd] in *.
  rewrite !Proofs.prints_app, Hp; cbn [app Train.prints flat_map].
  constructor; [|exact IH].
  unfold Rdiv; apply Rmult_le_pos; [exact Hr1|].
  apply Rlt_le, Rinv_0_lt_compat, lt_0_INR, Hlen.
Qed.

(** X6: when every [loss.item()] is nonnegative (as X3 shows for the
    trained model) and the loader is not empty, every [Training loss] the
    training cell prints is nonnegative: [running_loss] starts at 0, only
    grows, and is divided by [len(trainloader)]. *)
Theorem printed_losses_are_nonneg
    (Hitem : forall l, 0 <= item l) (Hlen : (0 < loader_len)%nat) (m : M) (epochs : nat) :
  Forall (fun v => 0 <= v)
    (Train.prints (Train.train Imgs Lbls M Out Loss R flatten zero_grad forward criterion
       backward step item 0 Rplus (fun r n => r / INR n) loader loader_len m epochs)).
Proof. unfold Train.train; now apply epochs_from_nonneg. Qed.

End TrainNonneg.

(** ** The sizes of the loader's batches *)

Lemma chunks_aux_sizes {A} (k fuel : nat) (l : list A) :
  0 < k -> List.length l <= fuel ->
  map (@List.length A) (Loader.chunks_aux fuel k l) =
  (repeat k (List.length l / k) ++
   (if Nat.eqb (List.length l mod k) 0 then [] else [List.length l mod k]))%list.
Proof.
  intros Hk; revert l; induction fuel as [|fuel IH]; intros l Hl.
  - destruct l; [|simpl in Hl; lia].
    simpl; rewrite Nat.div_small, Nat.mod_small by lia; reflexivity.
  - destruct l as [|x l'].
    + simpl; rewrite Nat.div_small, Nat.mod_small by lia; reflexivity.
    + remember (List.length (x :: l')) as n eqn:En.
      assert (Hn : 1 <= n) by (rewrite En; simpl; lia).
      cbn [Loader.chunks_aux map].
      rewrite IH by (rewrite length_skipn, <- En; lia).
      rewrite length_firstn, length_skipn, <- En.
      destruct (Nat.lt_ge_cases n k) as [Hlt|Hge].
      * replace (n - k) with 0 by lia.
        rewrite (Nat.div_small 0), (Nat.mod_small 0), (Nat.div_small n), (Nat.mod_small n)
          by lia.
        replace (Nat.min k n) with n by lia.
        destruct (Nat.eqb_spec n 0); [lia|]; reflexivity.
      * assert (Hd : n / k = S ((n - k) / k)).
        { rewrite <- Nat.add_1_r, <- (Nat.div_add (n - k) 1 k) by lia; f_equal; lia. }
        assert (Hm : n mod k = (n - k) mod k).
        { rewrite <- (Nat.Div0.mod_add (n - k) 1 k); f_equal; lia. }
        rewrite Hd, Hm.
        replace (Nat.min k n) with k by lia.
        reflexivity.
Qed.

(** X7: in every epoch, the loader cuts the dataset of [n] samples into
    [n / 64] batches of 64 samples followed, when [64] does not divide [n],
    by one last batch of the [n mod 64] samples left (the default
    [drop_last=False]); for the 60000 training images of MNIST that is 937
    batches of 64 and a last one of 32, and [len(trainloader)] is 938. *)
Theorem loader_batch_sizes (Img Lbl : Type)
    (sampler : nat -> list (Img * Lbl) -> list (Img * Lbl)) (dataset : list (Img * Lbl))
    (e : nat) (Hlen : List.length (sampler e dataset) = List.length dataset) :
  map (fun b => List.length (fst b))
    (Loader.epoch_batches Img Lbl sampler dataset Loader.batch_size e) =
  (repeat 64 (List.length dataset / 64) ++
   (if Nat.eqb (List.length dataset mod 64) 0 then [] else [List.length dataset mod 64]))%list /\
  map (fun b => List.length (snd b))
    (Loader.epoch_batches Img Lbl sampler dataset Loader.batch_size e) =
  map (fun b => List.length (fst b))
    (Loader.epoch_batches Img Lbl sampler dataset Loader.batch_size e) /\
  (List.length dataset = 60000 ->
   map (fun b => List.length (fst b))
     (Loader.epoch_batches Img Lbl sampler dataset Loader.batch_size e) =
   (repeat 64 937 ++ [32])%list /\
   Loader.loader_len (List.length dataset) Loader.batch_size = 938).
Proof.
  assert (Hsz : map (fun b => List.length (fst b))
                  (Loader.epoch_batches Img Lbl sampler dataset Loader.batch_size e) =
                (repeat 64 (List.length dataset / 64) ++
                 (if Nat.eqb (List.length dataset mod 64) 0 then []
                  else [List.length dataset mod 64]))%list).
  { unfold Loader.epoch_batches, Loader.batches, Loader.chunks, Loader.collate.
    rewrite map_map; cbn [fst].
    rewrite (map_ext _ (@List.length (Img * Lbl)) (fun x => length_map fst x)).
    rewrite chunks_aux_sizes, Hlen by (unfold Loader.batch_size; lia).
    reflexivity. }
  split; [exact Hsz|]; split.
  - unfold Loader.epoch_batches, Loader.batches, Loader.collate; rewrite !map_map.
    apply map_ext; intros b; cbn [fst snd]; now rewrite !length_map.
  - intros H60; rewrite Hsz, H60; split; vm_compute; reflexivity.
Qed.

(** ** [view] and indexing *)

Lemma prod_fill (dims : list (option nat)) (k : nat) :
  View.prod (map (View.fill k) dims) =
  View.prod (map (View.fill 1) dims) * k ^ List.length (filter View.is_infer dims).
Proof.
  induction dims as [|[d|] dims IH]; cbn [map View.prod fold_right filter View.is_infer
                                          View.fill List.length Nat.pow] in *; [lia| |].
  - fold (View.prod (map (View.fill k) dims)) (View.prod (map (View.fill 1) dims)) in *.
    rewrite IH; lia.
  - fold (View.prod (map (View.fill k) dims)) (View.prod (map (View.fill 1) dims)) in *.
    rewrite IH; lia.
Qed.

Lemma view_keeps_entries {A} (t t1 : View.tensor A) (dims : list (option nat)) :
  View.view t dims = Some t1 -> View.data t1 = View.data t /\ View.numel t1 = View.numel t.
Proof.
  unfold View.view.
  destruct (List.length (filter View.is_infer dims)) as [|[|c]] eqn:Ec; [| |discriminate].
  - destruct (Nat.eqb_spec (View.prod (map (View.fill 1) dims)) (View.numel t)) as [E|E];
      [|discriminate].
    intros H; injection H as <-; split; [reflexivity|].
    unfold View.numel in *; cbn [View.shape]; rewrite prod_fill, Ec; simpl; lia.
  - destruct (Nat.eqb_spec (View.prod (map (View.fill 1) dims)) 0) as [E0|E0];
      [discriminate|].
    destruct (Nat.eqb_spec (View.numel t mod View.prod (map (View.fill 1) dims)) 0) as [E|E];
      [|discriminate].
    intros H; injection H as <-; split; [reflexivity|].
    unfold View.numel at 1; cbn [View.shape]; rewrite prod_fill, Ec, Nat.pow_1_r.
    symmetry; apply Nat.Div0.div_exact; assumption.
Qed.

(** X8: [images.view(images.shape[0], -1)] turns a batch of [n] tensors
    of shape [s] into an [n] x [prod s] matrix with the same entries,
    whose row [i] holds the entries of [images[i]] in row-major order (784
    of them for the 1 x 28 x 28 MNIST images); on an empty batch the [-1]
    cannot be inferred and the call raises. *)
Theorem view_flattens_batch {A} (t : View.tensor A) (n : nat) (s : list nat)
    (Hs : View.shape t = n :: s) :
  (0 < n ->
   View.view t [Some n; None] = Some (View.mktensor [n; View.prod s] (View.data t)) /\
   forall i, View.index (View.mktensor [n; View.prod s] (View.data t)) i =
             option_map (fun r => View.mktensor [View.prod s] (View.data r)) (View.index t i)) /\
  (n = 0 -> View.view t [Some 0; None] = None) /\
  View.prod [1; 28; 28] = 784.
Proof.
  split; [|split; [intros ->; reflexivity | reflexivity]].
  intros Hn; split.
  - unfold View.view.
    replace (View.prod (map (View.fill 1) [Some n; None])) with n by (simpl; lia).
    cbn [filter View.is_infer List.length].
    replace (View.numel t) with (n * View.prod s)
      by (unfold View.numel; rewrite Hs; reflexivity).
    destruct (Nat.eqb_spec n 0) as [E|E]; [lia|].
    replace (map (View.fill (n * View.prod s / n)) [Some n; None]) with [n; View.prod s]
      by (cbn [map View.fill]; rewrite (Nat.mul_comm n (View.prod s)), Nat.div_mul by lia;
          reflexivity).
    rewrite (Nat.mul_comm n (View.prod s)), Nat.Div0.mod_mul; reflexivity.
  - intros i; unfold View.index; rewrite Hs; cbn [View.shape View.data].
    destruct (i <? n); [|reflexivity]; cbn [option_map View.data].
    replace (View.prod [View.prod s]) with (View.prod s) by (cbn [View.prod fold_right]; lia).
    reflexivity.
Qed.

(** X9: a [view] of a [view] is the second [view] of the original tensor
    (a view keeps the entries and their number); in particular, in the
    prediction cell, [img = images[0].view(1, 784)] and
    [img.view(1, 28, 28)] give back [images[0]]. *)
Theorem view_of_view {A} (t t1 : View.tensor A) (s1 s2 : list (option nat))
    (H : View.view t s1 = Some t1) :
  View.view t1 s2 = View.view t s2 /\
  (forall n, View.shape t = [n; 1; 28; 28] -> 0 < n ->
   exists img0 img, View.index t 0 = Some img0 /\
     View.view img0 [Some 1; Some 784] = Some img /\ View.shape img = [1; 784] /\
     View.view img [Some 1; Some 28; Some 28] = Some img0).
Proof.
  split.
  - destruct (view_keeps_entries t t1 s1 H) as [Hd Hn].
    unfold View.view; now rewrite Hd, Hn.
  - intros n Hs Hn.
    unfold View.index; rewrite Hs.
    destruct (Nat.ltb_spec 0 n) as [_|]; [|lia].
    eexists; eexists; split; [reflexivity|].
    split; [reflexivity|]; split; [reflexivity|]; reflexivity.
Qed.

(** ** The layer stacks *)

Section ArchFacts.

Import Reals.

Lemma forward_cons (l : Net.layer) (net : list Net.layer) (x : list R) :
  Net.forward (l :: net) x = Net.forward net (Net.apply_layer l x).
Proof. reflexivity. Qed.

Lemma forward_checked_ok (a : list Net.arch) :
  forall (net : list Net.layer) (x : list R) (o : nat),
  Net.shaped a net = true -> Arch.chain (List.length x) a = Some o ->
  Arch.forward_checked net x = Some (Net.forward net x) /\
  List.length (Net.forward net x) = o.
Proof.
  induction a as [|[i o'| |] a IH]; intros net x o Hs Hc;
    destruct net as [|l net]; try discriminate.
  - injection Hc as <-; split; reflexivity.
  - cbn [Net.shaped] in Hs; apply andb_true_iff in Hs as [Hl Hs].
    destruct l as [W b| |]; try discriminate.
    cbn [Net.layer_shaped] in Hl; rewrite !andb_true_iff in Hl.
    destruct Hl as [[HW Hrows] Hb]; apply Nat.eqb_eq in HW; apply Nat.eqb_eq in Hb.
    cbn [Arch.chain] in Hc; destruct (Nat.eqb_spec (List.length x) i) as [Hx|]; [|discriminate].
    cbn [Arch.forward_checked Arch.apply_checked].
    replace (forallb (fun w => Nat.eqb (List.length w) (List.length x)) W) with true
      by (symmetry; rewrite Hx; exact Hrows).
    rewrite forward_cons; apply IH; [exact Hs|].
    cbn [Net.apply_layer]; rewrite Proofs.length_zip_with, length_map, HW, Hb, Nat.min_id.
    exact Hc.
  - cbn [Net.shaped] in Hs; apply andb_true_iff in Hs as [Hl Hs].
    destruct l; try discriminate.
    cbn [Arch.forward_checked Arch.apply_checked]; rewrite forward_cons; apply IH; [exact Hs|].
    cbn [Net.apply_layer]; rewrite length_map; exact Hc.
  - cbn [Net.shaped] in Hs; apply andb_true_iff in Hs as [Hl Hs].
    destruct l; try discriminate.
    cbn [Arch.forward_checked Arch.apply_checked]; rewrite forward_cons; apply IH; [exact Hs|].
    cbn [Net.apply_layer]; unfold Net.log_softmax; rewrite length_map; exact Hc.
Qed.

(** X10: the notebook builds four [nn.Sequential] models (execution
    counts 2, 3, 11 and 16), and in each the sizes of consecutive
    [nn.Linear] layers agree, from [784 = 28 * 28] inputs to 10 outputs:
    whatever its parameters, each model maps a flattened image to 10
    values without a shape error. *)
Theorem notebook_models_are_shape_consistent :
  List.length Arch.notebook_models = 4 /\
  784 = 28 * 28 /\
  Forall (fun ls => exists a, Arch.parse_layers ls = Some a /\ Arch.chain 784 a = Some 10 /\
            forall net x, Net.shaped a net = true -> List.length x = 784 ->
              Arch.forward_checked net x = Some (Net.forward net x) /\
              List.length (Net.forward net x) = 10)
    Arch.notebook_models.
Proof.
  assert (Hm : Arch.notebook_models = [layers_logits; layers_logps; layers_logps; layers_logps])
    by (vm_compute; reflexivity).
  split; [rewrite Hm; reflexivity|]; split; [reflexivity|].
  assert (Hgen : forall a, Arch.chain 784 a = Some 10 ->
            forall net x, Net.shaped a net = true -> List.length x = 784 ->
              Arch.forward_checked net x = Some (Net.forward net x) /\
              List.length (Net.forward net x) = 10).
  { intros a Ha net x Hs Hx; apply (forward_checked_ok a); [exact Hs|]; now rewrite Hx. }
  rewrite Hm; apply Forall_forall; intros ls Hls.
  destruct Hls as [<-|[<-|[<-|[<-|[]]]]].
  1: exists [Net.ALinear 784 128; Net.AReLU; Net.ALinear 128 64; Net.AReLU;
             Net.ALinear 64 10].
  2-4: exists Net.trained_arch.
  all: split; [vm_compute; reflexivity|]; split; [vm_compute; reflexivity|].
  all: apply Hgen; vm_compute; reflexivity.
Qed.

End ArchFacts.

(** ** The loss of the model, with the checks of PyTorch *)

Section CriterionFacts.

Import Reals Lra.
Local Open Scope R_scope.










End CriterionFacts.

(** ** The transform and the gradients *)

Section TransformGradFacts.

Import Reals Lra.
Local Open Scope R_scope.

Lemma normalize_pixel (p : nat) : (INR p / 255 - / 2) / / 2 = 2 * INR p / 255 - 1.
Proof. field. Qed.

Lemma normalize_pixel_range (p : nat) : (p <= 255)%nat -> -1 <= 2 * INR p / 255 - 1 <= 1.
Proof.
  intros Hp; pose proof (pos_INR p) as H0; apply le_INR in Hp.
  replace (INR 255) with 255 in Hp by (simpl; ring).
  split; unfold Rdiv; nra.
Qed.

(** X11: the transform of the training set maps each pixel byte [p] of an
    image of at most 3 channels (MNIST images have 1) to
    [2 p / 255 - 1]; hence every input the model sees lies in [[-1, 1]],
    from [-1] for [p = 0] to [1] for [p = 255]. *)
Theorem transform_maps_pixels_to_unit_range (img : list (list nat))
    (Hc : (List.length img <= 3)%nat) :
  Transform.transform img = map (map (fun p => 2 * INR p / 255 - 1)) img /\
  (Forall (Forall (fun p => p <= 255)%nat) img ->
   Forall (Forall (fun v => -1 <= v <= 1)) (Transform.transform img)).
Proof.
  assert (Ht : Transform.transform img = map (map (fun p => 2 * INR p / 255 - 1)) img).
  { unfold Transform.transform, Transform.to_tensor.
    destruct img as [|c1 [|c2 [|c3 [|c4 img]]]]; [reflexivity| | | |simpl in Hc; lia];
      cbn [map Transform.normalize]; rewrite ?map_map;
      repeat first [reflexivity | apply (f_equal2 cons) |
                    apply map_ext; intros p; apply normalize_pixel]. }
  split; [exact Ht|].
  intros Hp; rewrite Ht.
  apply Forall_map; eapply Forall_impl; [|exact Hp]; intros c Hc'.
  apply Forall_map; eapply Forall_impl; [|exact Hc']; intros p.
  apply normalize_pixel_range.
Qed.

(** X12: with [optimizer.zero_grad()] before [loss.backward()] (as in the
    training loop and in execution count 14), [optimizer.step()] moves an
    entry by [-lr] times the gradient of the current batch only, whether
    [zero_grad] zeroes the gradients or resets them to [None]; without it
    the gradient left by an earlier [backward] is added in.  The recorded
    run shows the gradient is [None] before the first [backward]. *)
Theorem zero_grad_isolates_each_step (set_to_none : bool) (lr g : R) (p : Grad.param) :
  Grad.value (Grad.step lr (Grad.backward g (Grad.zero_grad set_to_none p))) =
    Grad.value p - lr * g /\
  (forall g0, Grad.grad p = Some g0 ->
   Grad.value (Grad.step lr (Grad.backward g p)) = Grad.value p - lr * (g0 + g)) /\
  nth_error src_14 3 = Some (SExpr None ["optimizer.zero_grad" @@ []]) /\
  nth_error src_14 6 = Some (SExpr None ["loss.backward" @@ []]) /\
  option_map (fun c => nth_error (Recorded.stdout_lines c) 1) (Recorded.cell_with_count 12) =
    Some (Some " None"%string).
Proof.
  split; [|split; [|split; [reflexivity | split; [reflexivity | vm_compute; reflexivity]]]].
  - destruct set_to_none, p as [v [h|]]; cbn; unfold SGD.add_alpha; ring.
  - intros g0 H; destruct p as [v h]; cbn in H; subst h; cbn; unfold SGD.add_alpha; ring.
Qed.

End TransformGradFacts.

(** ** The properties at concrete inputs *)

Section ExtraWitnesses.

Import Reals Lra.
Local Open Scope R_scope.

Lemma mean_square_gradient_witness :
  SGD.mget [[1; 2]; [3; 4]] 0 1 = Some 2 /\
  derivable_pt_lim (fun t => Autograd.z_of (Autograd.set_entry [[1; 2]; [3; 4]] 0 1 t)) 2
    (2 * 2 / INR (Autograd.numel [[1; 2]; [3; 4]])).
Proof.
  assert (Ha : SGD.mget [[1; 2]; [3; 4]] 0 1 = Some 2) by reflexivity.
  split; [exact Ha|].
  exact (proj1 (mean_square_gradient [[1; 2]; [3; 4]] 0 1 2 Ha)).
Defined.

Lemma nll_of_model_is_nonneg_witness :
  Net.shaped Net.trained_arch
    [Net.Linear (repeat (repeat 0 784) 128) (repeat 0 128); Net.ReLU;
     Net.Linear (repeat (repeat 0 128) 64) (repeat 0 64); Net.ReLU;
     Net.Linear (repeat (repeat 0 64) 10) (repeat 0 10); Net.LogSoftmax] = true /\
  exists l, Loss.nll (Net.forward_batch
    [Net.Linear (repeat (repeat 0 784) 128) (repeat 0 128); Net.ReLU;
     Net.Linear (repeat (repeat 0 128) 64) (repeat 0 64); Net.ReLU;
     Net.Linear (repeat (repeat 0 64) 10) (repeat 0 10); Net.LogSoftmax]
    [repeat 0 784]) [0%nat] = Some l /\ 0 <= l.
Proof.
  assert (Hs : Net.shaped Net.trained_arch
    [Net.Linear (repeat (repeat 0 784) 128) (repeat 0 128); Net.ReLU;
     Net.Linear (repeat (repeat 0 128) 64) (repeat 0 64); Net.ReLU;
     Net.Linear (repeat (repeat 0 64) 10) (repeat 0 10); Net.LogSoftmax] = true) by (vm_compute; reflexivity).
  assert (Hne : [repeat 0 784] <> []) by discriminate.
  split; [exact Hs|].
  destruct (batch_sum_nll_defined (Net.forward_batch
    [Net.Linear (repeat (repeat 0 784) 128) (repeat 0 128); Net.ReLU;
     Net.Linear (repeat (repeat 0 128) 64) (repeat 0 64); Net.ReLU;
     Net.Linear (repeat (repeat 0 64) 10) (repeat 0 10); Net.LogSoftmax]
    [repeat 0 784]) [0%nat]) as [s Hsum].
  - eapply Forall_impl; [|exact (forward_batch_log_softmax _ [repeat 0 784] Hs)];
      cbv beta; tauto.
  - reflexivity.
  - repeat constructor.
  - assert (Hl : Loss.nll (Net.forward_batch
      [Net.Linear (repeat (repeat 0 784) 128) (repeat 0 128); Net.ReLU;
     Net.Linear (repeat (repeat 0 128) 64) (repeat 0 64); Net.ReLU;
     Net.Linear (repeat (repeat 0 64) 10) (repeat 0 10); Net.LogSoftmax]
      [repeat 0 784]) [0%nat] = Some (s / INR 1))
      by (unfold Loss.nll, Loss.batch_mean; now rewrite Hsum).
    exists (s / INR 1); split; [exact Hl|].
    exact (nll_of_model_is_nonneg _ Hs [repeat 0 784] [0%nat] _ Hne Hl).
Defined.


Lemma uniform_logits_loss_witness :
  Loss.cross_entropy (map (fun c => repeat c 10) [0; 5]) [0%nat; 9%nat] = Some (ln 10).
Proof.
  apply uniform_logits_loss; [discriminate | reflexivity |].
  repeat constructor; lia.
Defined.

Lemma printed_losses_are_nonneg_witness :
  Forall (fun v => 0 <= v)
    (Train.prints (Train.train unit unit unit unit unit R (fun i => i) (fun m => m)
       (fun _ _ => tt) (fun _ _ => tt) (fun m _ => m) (fun m => m) (fun _ => 1)
       0 Rplus (fun r n => r / INR n) (fun _ => [(tt, tt); (tt, tt)]) 2 tt 2)).
Proof.
  apply (printed_losses_are_nonneg unit unit unit unit unit (fun i => i) (fun m => m)
           (fun _ _ => tt) (fun _ _ => tt) (fun m _ => m) (fun m => m) (fun _ => 1)
           (fun _ => [(tt, tt); (tt, tt)]) 2).
  - intros _; lra.
  - lia.
Defined.

Lemma loader_batch_sizes_witness :
  map (fun b => List.length (fst b))
    (Loader.epoch_batches unit unit (fun _ l => l) (repeat (tt, tt) 100) Loader.batch_size 0) =
  [64%nat; 36%nat].
Proof.
  rewrite (proj1 (loader_batch_sizes unit unit (fun _ l => l) (repeat (tt, tt) 100) 0
                    eq_refl)).
  reflexivity.
Defined.

Lemma view_flattens_batch_witness :
  View.view (View.mktensor [2%nat; 3%nat] [1%nat; 2%nat; 3%nat; 4%nat; 5%nat; 6%nat])
    [Some 2%nat; None] =
  Some (View.mktensor [2%nat; 3%nat] [1%nat; 2%nat; 3%nat; 4%nat; 5%nat; 6%nat]) /\
  View.view (View.mktensor [0%nat; 3%nat] (@nil nat)) [Some 0%nat; None] = None.
Proof.
  split.
  - exact (proj1 (proj1 (view_flattens_batch
             (View.mktensor [2%nat; 3%nat] [1%nat; 2%nat; 3%nat; 4%nat; 5%nat; 6%nat])
             2 [3%nat] eq_refl) ltac:(lia))).
  - exact (proj1 (proj2 (view_flattens_batch (View.mktensor [0%nat; 3%nat] (@nil nat))
             0 [3%nat] eq_refl)) eq_refl).
Defined.

Lemma view_of_view_witness :
  View.view (View.mktensor [2%nat; 1%nat; 28%nat; 28%nat] (repeat tt 1568))
    [Some 2%nat; None] =
  Some (View.mktensor [2%nat; 784%nat] (repeat tt 1568)) /\
  exists img0 img,
    View.index (View.mktensor [2%nat; 1%nat; 28%nat; 28%nat] (repeat tt 1568)) 0 = Some img0 /\
    View.view img0 [Some 1%nat; Some 784%nat] = Some img /\ View.shape img = [1%nat; 784%nat] /\
    View.view img [Some 1%nat; Some 28%nat; Some 28%nat] = Some img0.
Proof.
  assert (H : View.view (View.mktensor [2%nat; 1%nat; 28%nat; 28%nat] (repeat tt 1568))
                [Some 2%nat; None] =
              Some (View.mktensor [2%nat; 784%nat] (repeat tt 1568)))
    by (vm_compute; reflexivity).
  split; [exact H|].
  exact (proj2 (view_of_view _ _ _ [Some 2%nat; None] H) 2%nat eq_refl ltac:(lia)).
Defined.

Lemma transform_maps_pixels_to_unit_range_witness :
  Transform.transform [[0%nat; 128%nat; 255%nat]] =
    [[2 * INR 0 / 255 - 1; 2 * INR 128 / 255 - 1; 2 * INR 255 / 255 - 1]] /\
  Forall (Forall (fun v => -1 <= v <= 1)) (Transform.transform [[0%nat; 128%nat; 255%nat]]).
Proof.
  assert (Hc : (List.length [[0%nat; 128%nat; 255%nat]] <= 3)%nat) by (simpl; lia).
  split.
  - exact (proj1 (transform_maps_pixels_to_unit_range _ Hc)).
  - apply (proj2 (transform_maps_pixels_to_unit_range _ Hc)).
    repeat constructor; lia.
Defined.

End ExtraWitnesses.

End Extras.
